(** * nmon_summary: a shallow embedding of [nmon_summary.py]

    The development follows the source file function by function:
    [process_nmon_file], [parse_system_info], [calculate_aix_metrics],
    [calculate_linux_metrics], [calculate_memory_metrics] and [main].

    Library code the script calls is modelled first:
    - [PyStr]: the [str] methods used ([startswith], [in], [strip],
      [split]) on Latin-1 text, one [ascii] per code point;
    - [PyFloat]: numpy [float64] values as the binary64 numbers of the
      kernel (every operation rounds to nearest, ties to even, and
      overflows to an infinity), and [float(str)]: its grammar and the
      correctly rounded value of a decimal literal;
    - [Pandas]: a [DataFrame] built from a list of rows, column
      selection, [astype(float)] and the [Series] reductions [sum],
      [min], [max], [mean] and [quantile], the last one as numpy
      interpolates it.

    Exceptions are values of [exn] carried by a small writer/error monad
    [M] whose log records what the script prints. *)

From Stdlib Require Import ZArith QArith Qround String Ascii List Lia.
From Stdlib Require Import Permutation Sorted.
From Stdlib Require Import PrimFloat SpecFloat FloatOps FloatAxioms.
From stdpp Require Import gmap strings.
Import ListNotations.

#[local] Set Warnings "-inexact-float".

Open Scope string_scope.
Open Scope list_scope.

(* ===================================================================== *)
(** ** Python [str] methods *)
(* ===================================================================== *)

Module PyStr.

(** [s.startswith(p)] *)
Definition startswith (s p : string) : bool := String.prefix p s.

(** [s.endswith(p)] *)
Definition endswith (s p : string) : bool :=
  let n := String.length s in
  let k := String.length p in
  (k <=? n)%nat && String.eqb (String.substring (n - k) k s) p.

(** [sub in s] *)
Fixpoint contains (sub s : string) : bool :=
  String.prefix sub s ||
  match s with
  | EmptyString => false
  | String _ s' => contains sub s'
  end.

(** [c.isspace()] for a code point below 256: TAB..CR, FS..US, SPACE,
    NEL and NBSP. *)
Definition isspace (c : ascii) : bool :=
  let n := nat_of_ascii c in
  ((9 <=? n) && (n <=? 13) || (28 <=? n) && (n <=? 32)
   || (n =? 133) || (n =? 160))%nat.

Fixpoint lstrip_by (p : ascii -> bool) (s : string) : string :=
  match s with
  | EmptyString => EmptyString
  | String c s' => if p c then lstrip_by p s' else s
  end.

Fixpoint rstrip_by (p : ascii -> bool) (s : string) : string :=
  match s with
  | EmptyString => EmptyString
  | String c s' =>
      match rstrip_by p s' with
      | EmptyString => if p c then EmptyString else String c EmptyString
      | r => String c r
      end
  end.

Definition strip_by (p : ascii -> bool) (s : string) : string :=
  rstrip_by p (lstrip_by p s).

(** [s.strip()] *)
Definition strip (s : string) : string := strip_by isspace s.

(** [s.strip(c)] for a one-character argument *)
Definition strip_char (c : ascii) (s : string) : string :=
  strip_by (Ascii.eqb c) s.

(** [s.split(sep)] for a one-character separator: never empty. *)
Fixpoint split (sep : ascii) (s : string) : list string :=
  match s with
  | EmptyString => [EmptyString]
  | String c s' =>
      if Ascii.eqb c sep then EmptyString :: split sep s'
      else match split sep s' with
           | [] => [String c EmptyString]
           | p :: ps => String c p :: ps
           end
  end.

Definition comma : ascii := ","%char.
Definition colon : ascii := ":"%char.
Definition underscore : ascii := "_"%char.
Definition dquote : ascii := "034"%char.

End PyStr.

(* ===================================================================== *)
(** ** numpy [float64] and Python [float(str)] *)
(* ===================================================================== *)

Module PyFloat.

(** A [float64]: a binary64 number.  The operations are those of the
    processor, which numpy uses: each result is the exact one rounded to
    nearest, ties to even; a result too large is an infinity, an
    undefined one NaN. *)
Definition float : Type := PrimFloat.float.

Definition NaN : float := PrimFloat.nan.
Definition zero : float := PrimFloat.zero.

Definition isnan (x : float) : bool := PrimFloat.is_nan x.

Definition fneg (x : float) : float := PrimFloat.opp x.
Definition fadd (x y : float) : float := PrimFloat.add x y.
Definition fsub (x y : float) : float := PrimFloat.sub x y.
Definition fmul (x y : float) : float := PrimFloat.mul x y.

(** numpy division: a zero divisor gives an infinity or NaN, never an
    exception. *)
Definition fdiv (x y : float) : float := PrimFloat.div x y.

(** [x < y]; false as soon as one side is NaN *)
Definition fltb (x y : float) : bool := PrimFloat.ltb x y.

(** [x <= y] *)
Definition fleb (x y : float) : bool := PrimFloat.leb x y.

(** [x > y] *)
Definition fgtb (x y : float) : bool := fltb y x.

(** The float nearest to the integer [z]: an [int] operand of a
    [float64] operation. *)
Definition of_Z (z : Z) : float :=
  SF2Prim (binary_normalize prec emax z 0 false).

(** The float nearest to [m / d], for [0 <= m] and [0 < d]: the
    quotient is taken with its position between two floats and rounded
    once. *)
Definition of_ratio (m d : Z) : float :=
  match m with
  | Z0 => zero
  | _ =>
      let '(q, e, l) := SFdiv_core_binary prec emax m 0 d 0 in
      SF2Prim (binary_round_aux prec emax false q e l)
  end.

(** [np.floor(x)] as an index: the largest integer not above a finite
    [x]. *)
Definition floor (x : float) : Z :=
  match Prim2SF x with
  | S754_finite s m e => Z.shiftl (cond_Zopp s (Zpos m)) e
  | _ => 0%Z
  end.



(** *** [float(s)] *)

(** The characters [float] trims at both ends: the blanks of C
    ([isspace]: TAB to CR and SPACE) and, below 256, the Unicode spaces
    NEL and NBSP, which the conversion first turns into blanks.  The
    separators FS to US, which [str.strip] removes, are kept, and make
    the text an invalid literal. *)
Definition is_float_space (c : ascii) : bool :=
  let n := nat_of_ascii c in
  ((9 <=? n) && (n <=? 13) || (n =? 32) || (n =? 133) || (n =? 160))%nat.

Definition isdigit (c : ascii) : bool :=
  let n := nat_of_ascii c in ((48 <=? n) && (n <=? 57))%nat.

Definition digit_val (c : ascii) : Z := Z.of_nat (nat_of_ascii c) - 48.

Definition lower (c : ascii) : ascii :=
  let n := nat_of_ascii c in
  if ((65 <=? n) && (n <=? 90))%nat then ascii_of_nat (n + 32) else c.

Fixpoint lower_string (s : string) : string :=
  match s with
  | EmptyString => EmptyString
  | String c s' => String (lower c) (lower_string s')
  end.

(** Underscores are dropped when each one stands between two digits;
    any other underscore is an error.  [prev] is the character before
    the one examined. *)
Fixpoint drop_underscores (prev : option ascii) (s : string) : option string :=
  match s with
  | EmptyString =>
      match prev with
      | Some c => if Ascii.eqb c "_" then None else Some EmptyString
      | None => Some EmptyString
      end
  | String c s' =>
      if Ascii.eqb c "_" then
        match prev with
        | Some p => if isdigit p then drop_underscores (Some c) s' else None
        | None => None
        end
      else
        let bad := match prev with
                   | Some p => Ascii.eqb p "_" && negb (isdigit c)
                   | None => false
                   end in
        if bad then None
        else option_map (String c) (drop_underscores (Some c) s')
  end.

(** Longest run of digits at the head of [s]: the digits read (as a
    number and a count) and the rest. *)
Fixpoint take_digits (acc : Z) (n : nat) (s : string) : Z * nat * string :=
  match s with
  | String c s' =>
      if isdigit c then take_digits (10 * acc + digit_val c) (S n) s'
      else (acc, n, s)
  | EmptyString => (acc, n, s)
  end.

(** An optional sign: [true] for a minus. *)
Definition take_sign (s : string) : bool * string :=
  match s with
  | String "-" s' => (true, s')
  | String "+" s' => (false, s')
  | _ => (false, s)
  end.

(** The float nearest to [m * 10^e], for [0 <= m]: the value of a
    decimal literal, correctly rounded.  [1e400] is an infinity and
    [1e-400] is zero. *)
Definition scale10 (m e : Z) : float :=
  if (0 <=? e)%Z then of_Z (m * 10 ^ e) else of_ratio m (10 ^ (- e)).

(** The exponent part: [e] or [E], an optional sign and at least one
    digit.  The whole rest of the literal must be consumed. *)
Definition parse_exponent (s : string) : option Z :=
  match s with
  | EmptyString => Some 0%Z
  | String c s' =>
      if Ascii.eqb (lower c) "e" then
        let '(neg, s1) := take_sign s' in
        let '(v, n, rest) := take_digits 0 0 s1 in
        match n, rest with
        | S _, EmptyString => Some (if neg then (- v)%Z else v)
        | _, _ => None
        end
      else None
  end.

(** An unsigned decimal literal: digits, an optional point, digits,
    an optional exponent; at least one digit in the mantissa. *)
Definition parse_decimal (s : string) : option float :=
  let '(ip, n1, r1) := take_digits 0 0 s in
  let '(m, n2, r2) :=
    match r1 with
    | String "." r => take_digits ip 0 r
    | _ => (ip, 0%nat, r1)
    end in
  match (n1 + n2)%nat with
  | O => None
  | S _ =>
      match parse_exponent r2 with
      | Some e => Some (scale10 m (e - Z.of_nat n2))
      | None => None
      end
  end.

Definition parse_unsigned (s : string) : option float :=
  let l := lower_string s in
  if String.eqb l "inf" || String.eqb l "infinity" then Some PrimFloat.infinity
  else if String.eqb l "nan" then Some NaN
  else parse_decimal s.

(** [float(s)]; [None] stands for the [ValueError]. *)
Definition py_float (s : string) : option float :=
  match drop_underscores None (PyStr.strip_by is_float_space s) with
  | None => None
  | Some t =>
      let '(neg, body) := take_sign t in
      option_map (fun x => if neg then fneg x else x) (parse_unsigned body)
  end.

End PyFloat.

(* ===================================================================== *)
(** ** Exceptions *)
(* ===================================================================== *)

Module PyExn.

Inductive exn : Type :=
| KeyError (column : nat)
| IndexError
| ValueError (text : string)
| OSError (path : string).

(** The outcome of an expression that may raise. *)
Inductive result (A : Type) : Type :=
| Ok (a : A)
| Raise (e : exn).

Arguments Ok {A} a.
Arguments Raise {A} e.

Definition rbind {A B : Type} (r : result A) (k : A -> result B) : result B :=
  match r with
  | Ok a => k a
  | Raise e => Raise e
  end.

Definition is_ok {A : Type} (r : result A) : bool :=
  match r with Ok _ => true | Raise _ => false end.

End PyExn.

Declare Scope py_scope.
Delimit Scope py_scope with py.
Notation "x <~ r ;; k" := (PyExn.rbind r (fun x => k))
  (at level 20, r at level 99, k at level 200, only parsing) : py_scope.
Open Scope py_scope.

(* ===================================================================== *)
(** ** pandas: [DataFrame] and [Series] *)
(* ===================================================================== *)

Module Pandas.
Import PyExn PyFloat.

(** [pd.DataFrame(rows)] for a list of lists of strings: one row per
    list, as many columns as the longest row, shorter rows padded with
    missing cells. *)
Definition DataFrame : Type := list (list string).

(** A column before conversion: a missing cell is [None]. *)
Definition ObjSeries : Type := list (option string).

Definition Series : Type := list float.

(** [len(df)] *)
Definition df_len (df : DataFrame) : nat := length df.

Definition ncols (df : DataFrame) : nat :=
  fold_right (fun row m => Nat.max (length row) m) 0%nat df.

Definition column (df : DataFrame) (k : nat) : ObjSeries :=
  map (fun row => nth_error row k) df.

(** [df[k]]: selection by label; the labels are [0 .. ncols-1]. *)
Definition getitem (df : DataFrame) (k : nat) : result ObjSeries :=
  if (k <? ncols df)%nat then Ok (column df k) else Raise (KeyError k).

(** [df.iloc[:, k]]: selection by position. *)
Definition iloc (df : DataFrame) (k : nat) : result ObjSeries :=
  if (k <? ncols df)%nat then Ok (column df k) else Raise IndexError.

(** [.astype(float)]: a missing cell becomes NaN, a string goes
    through [float]; the first string that is not a number raises. *)
Fixpoint astype_float (s : ObjSeries) : result Series :=
  match s with
  | [] => Ok []
  | None :: s' => xs <~ astype_float s' ;; Ok (NaN :: xs)
  | Some t :: s' =>
      match py_float t with
      | Some x => xs <~ astype_float s' ;; Ok (x :: xs)
      | None => Raise (ValueError t)
      end
  end.

(** The reductions skip NaN ([skipna=True]). *)
Definition dropna (s : Series) : Series :=
  List.filter (fun x => negb (isnan x)) s.

Definition fmin2 (x y : float) : float := if fltb y x then y else x.
Definition fmax2 (x y : float) : float := if fltb x y then y else x.

(** [s.sum()]: the cells that are not NaN, added from left to right.
    numpy adds a column of eight cells or more in blocks, so that the
    last bits of an inexact sum depend on the library; that order is not
    modelled.  The statements below give a value to a sum, or to a mean,
    only where every partial sum is exact, whatever the order. *)
Definition sum (s : Series) : float := fold_left fadd (dropna s) zero.

(** [s.min()] *)
Definition min (s : Series) : float :=
  match dropna s with
  | [] => NaN
  | x :: xs => fold_left fmin2 xs x
  end.

(** [s.max()] *)
Definition max (s : Series) : float :=
  match dropna s with
  | [] => NaN
  | x :: xs => fold_left fmax2 xs x
  end.

(** [s.mean()]: the sum of the cells that are not NaN over their
    number. *)
Definition mean (s : Series) : float :=
  match dropna s with
  | [] => NaN
  | v => fdiv (fold_left fadd v zero) (of_Z (Z.of_nat (length v)))
  end.

(** [a - b], cell by cell *)
Fixpoint sub (a b : Series) : Series :=
  match a, b with
  | x :: a', y :: b' => fsub x y :: sub a' b'
  | _, _ => []
  end.

(** [s / c] *)
Definition div_scalar (s : Series) (c : float) : Series :=
  map (fun x => fdiv x c) s.

Fixpoint insort (x : float) (l : list float) : list float :=
  match l with
  | [] => [x]
  | y :: l' => if fleb x y then x :: l else y :: insort x l'
  end.

Definition sort (l : list float) : list float := fold_right insort [] l.

(** numpy's [_lerp]: [a + (b - a) * t], replaced by
    [b - (b - a) * (1 - t)] when [t >= 0.5]. *)
Definition lerp (a b t : float) : float :=
  let diff_b_a := fsub b a in
  if fleb 0.5%float t
  then fsub b (fmul diff_b_a (fsub 1%float t))
  else fadd a (fmul diff_b_a t).

(** [v[i]]: a negative index counts from the end. *)
Definition take (v : list float) (i : Z) : float :=
  nth (Z.to_nat (if (i <? 0)%Z then Z.of_nat (length v) + i else i)) v NaN.

(** [s.quantile(q)] with the default linear interpolation, as pandas
    hands it to numpy: NaN dropped, the rest sorted, the virtual index
    [(n - 1) * q] computed in [float64] and placed between its floor
    and the next position; an index at or beyond the last position
    takes the last value twice, one below zero the first. *)
Definition quantile (q : float) (s : Series) : float :=
  match sort (dropna s) with
  | [] => NaN
  | v =>
      let n := Z.of_nat (length v) in
      let virtual_index := fmul (of_Z (n - 1)) q in
      let '(previous, next) :=
        if fleb (of_Z (n - 1)) virtual_index then (-1, -1)%Z
        else if fltb virtual_index zero then (0, 0)%Z
        else (floor virtual_index, floor virtual_index + 1)%Z in
      let gamma := fsub virtual_index (of_Z previous) in
      lerp (take v previous) (take v next) gamma
  end.

(** [pd.DataFrame(rows, columns=names)]: every row must have one cell
    per name. *)
Definition with_columns {A : Type} (rows : list (list A)) (names : list string)
  : result (list string * list (list A)) :=
  if forallb (fun row => (length row =? length names)%nat) rows
  then Ok (names, rows)
  else Raise (ValueError "columns").

End Pandas.

(* ===================================================================== *)
(** ** The script *)
(* ===================================================================== *)

Module Nmon.
Import PyStr PyExn PyFloat Pandas.

(** A cell of a result tuple. *)
Inductive value : Type :=
| VStr (s : string)
| VInt (z : Z)
| VFloat (x : float).

Definition is_numeric (v : value) : bool :=
  match v with VStr _ => false | _ => true end.

(** What the script prints, one constructor per [print] call. *)
Inductive message : Type :=
| WarnLparFormat (line : string)
| WarnProcFormat (line : string)
| WarnNoLpar (file_path : string)
| ErrProcessing (file_path : string) (e : exn)
| ErrAixMetrics (e : exn)
| ErrLinuxMetrics (e : exn)
| ErrMemoryMetrics (e : exn).

(** Computations that print and may raise. *)
Definition M (A : Type) : Type := (list message * result A)%type.

Definition ret {A : Type} (a : A) : M A := ([], Ok a).

Definition bind {A B : Type} (m : M A) (k : A -> M B) : M B :=
  match m with
  | (out, Ok a) => let '(out', r) := k a in (out ++ out', r)
  | (out, Raise e) => (out, Raise e)
  end.

Definition print (msg : message) : M unit := ([msg], Ok tt).

Definition lift {A : Type} (r : result A) : M A := ([], r).

(** [try: body except Exception as e: handler e] *)
Definition try_except {A : Type} (body : M A) (handler : exn -> M A) : M A :=
  match body with
  | (out, Raise e) => let '(out', r) := handler e in (out ++ out', r)
  | returned => returned
  end.

Notation "x <- m ;; k" := (bind m (fun x => k))
  (at level 20, m at level 99, k at level 200, only parsing) : py_scope.

Inductive os : Type := AIX | Linux.

(** [parts[i]] *)
Definition item (parts : list string) (i : nat) : result string :=
  match nth_error parts i with
  | Some x => Ok x
  | None => Raise IndexError
  end.

(** [parts[-1]] *)
Definition last_item (parts : list string) : result string :=
  match rev parts with
  | x :: _ => Ok x
  | [] => Raise IndexError
  end.

(** The text after the last colon of [line], stripped of white space
    and then of double quotes. *)
Definition after_last_colon (line : string) : result string :=
  t <~ last_item (split colon line) ;;
  Ok (strip_char dquote (strip t)).

(** [parse_system_info(line, system_info)]: the dictionary after the
    call. *)
Definition parse_system_info (line : string) (system_info : gmap string string)
  : result (gmap string string) :=
  if contains "AAA,date" line then
    v <~ item (split comma line) 2 ;;
    Ok (<["Date" := v]> system_info)
  else if contains "lparname" line then
    v <~ item (split comma line) 3 ;;
    Ok (<["LPAR Name" := strip v]> system_info)
  else if contains "System Model:" line then
    t <~ after_last_colon line ;;
    v <~ item (split comma t) 1 ;;
    Ok (<["System Model" := v]> system_info)
  else if contains "Machine Serial Number:" line then
    t <~ after_last_colon line ;;
    Ok (<["Machine Serial Number" := t]> system_info)
  else if contains "Processor Type:" line then
    t <~ after_last_colon line ;;
    v <~ item (split underscore t) 1 ;;
    Ok (<["Processor Type" := v]> system_info)
  else Ok system_info.

(** [data[k].astype(float)] *)
Definition float_col (data : DataFrame) (k : nat) : result Series :=
  c <~ getitem data k ;; astype_float c.

(** [df.iloc[:, k].astype(float)] *)
Definition float_iloc (df : DataFrame) (k : nat) : result Series :=
  c <~ iloc df k ;; astype_float c.

Definition zeros (n : nat) : list value := repeat (VInt 0) n.

(** [total / count if count > 0 else 0] *)
Definition average (total : float) (count : nat) : value :=
  if (0 <? count)%nat then VFloat (fdiv total (of_Z (Z.of_nat count)))
  else VInt 0.

(** [(VP / E) * 100 if E > 0 else 0] *)
Definition vp_e (VP E : float) : value :=
  if fgtb E zero then VFloat (fmul (fdiv VP E) (of_Z 100)) else VInt 0.

(** The [try] block of [calculate_aix_metrics]. *)
Definition aix_metrics_body (data : DataFrame) : result (list value) :=
  let count := df_len data in
  total <~ (s <~ float_col data 2 ;; Ok (sum s)) ;;
  max_cpu <~ (s <~ float_col data 2 ;; Ok (max s)) ;;
  min_cpu <~ (s <~ float_col data 2 ;; Ok (min s)) ;;
  VP <~ (s <~ float_col data 3 ;; Ok (min s)) ;;
  E <~ (s <~ float_col data 6 ;; Ok (min s)) ;;
  poolCPU <~ (s <~ float_col data 5 ;; Ok (min s)) ;;
  poolIdle <~ (s <~ float_col data 8 ;; Ok (min s)) ;;
  W <~ (s <~ float_col data 7 ;; Ok (min s)) ;;
  cap <~ (s <~ float_col data 12 ;; Ok (min s)) ;;
  let avg := average total count in
  let vp_e_ratio := vp_e VP E in
  Ok [VInt (Z.of_nat count); VFloat VP; VFloat E; vp_e_ratio;
      VFloat poolCPU; VFloat poolIdle; VFloat W; VFloat cap;
      VFloat total; VFloat min_cpu; avg; VFloat max_cpu].

Definition calculate_aix_metrics (data : DataFrame) : M (list value) :=
  try_except (lift (aix_metrics_body data))
    (fun e => _ <- print (ErrAixMetrics e) ;; ret (zeros 12)).

(** The [try] block of [calculate_linux_metrics]. *)
Definition linux_metrics_body (data : DataFrame) : result (list value) :=
  let count := df_len data in
  total <~ (s <~ float_col data 2 ;; Ok (sum s)) ;;
  max_cpu <~ (s <~ float_col data 2 ;; Ok (max s)) ;;
  min_cpu <~ (s <~ float_col data 2 ;; Ok (min s)) ;;
  VP <~ (s <~ float_col data 13 ;; Ok (sum s)) ;;
  E <~ (s <~ float_col data 10 ;; Ok (sum s)) ;;
  poolCPU <~ (s <~ float_col data 8 ;; Ok (sum (div_scalar s (of_Z 100)))) ;;
  poolIdle <~ (s <~ float_col data 21 ;; Ok (sum s)) ;;
  W <~ (s <~ float_col data 16 ;; Ok (sum s)) ;;
  cap <~ (s <~ float_col data 4 ;; Ok (sum s)) ;;
  let avg := average total count in
  let vp_e_ratio := vp_e VP E in
  Ok [VInt (Z.of_nat count); VFloat VP; VFloat E; vp_e_ratio;
      VFloat poolCPU; VFloat poolIdle; VFloat W; VFloat cap;
      VFloat total; VFloat min_cpu; avg; VFloat max_cpu].

Definition calculate_linux_metrics (data : DataFrame) : M (list value) :=
  try_except (lift (linux_metrics_body data))
    (fun e => _ <- print (ErrLinuxMetrics e) ;; ret (zeros 12)).

(** The literal [0.95]: the float nearest to it.  pandas multiplies it
    by 100 and numpy divides it by 100 again, which gives the same
    float. *)
Definition q95 : float := 0.95%float.
Definition kib_per_gib : float := of_Z 1024.

(** The per-sample [used] series of [calculate_memory_metrics]. *)
Definition memory_used (mem_df : DataFrame) (os_type : os) : result Series :=
  match os_type with
  | AIX =>
      a <~ float_iloc mem_df 6 ;;
      b <~ float_iloc mem_df 4 ;;
      Ok (sub a b)
  | Linux =>
      a <~ float_iloc mem_df 2 ;;
      b <~ float_iloc mem_df 7 ;;
      Ok (sub a b)
  end.

(** The [try] block of [calculate_memory_metrics].  The column
    [used] added to [mem_df] does not change [len(mem_df)]. *)
Definition memory_metrics_body (mem_df : DataFrame) (os_type : os)
  : result (list value) :=
  used <~ memory_used mem_df os_type ;;
  let min_used := fdiv (min used) kib_per_gib in
  let avg_used := fdiv (mean used) kib_per_gib in
  let max_used := fdiv (max used) kib_per_gib in
  let percentile_used := fdiv (quantile q95 used) kib_per_gib in
  Ok [VInt (Z.of_nat (df_len mem_df)); VFloat min_used; VFloat avg_used;
      VFloat max_used; VFloat percentile_used].

Definition calculate_memory_metrics (mem_df : DataFrame) (os_type : os)
  : M (list value) :=
  try_except (lift (memory_metrics_body mem_df os_type))
    (fun e => _ <- print (ErrMemoryMetrics e) ;; ret (zeros 5)).

(** The variables of [process_nmon_file] that the scan updates. *)
Record scan_state : Type := ScanState {
  os_type : os;
  lpar_data : list (list string);
  proc_data : list (list string);
  mem_data : list (list string);
  system_info : gmap string string
}.

Definition initial_state : scan_state :=
  {| os_type := Linux; lpar_data := []; proc_data := []; mem_data := [];
     system_info := ∅ |}.

Definition set_os (o : os) (st : scan_state) : scan_state :=
  {| os_type := o; lpar_data := lpar_data st; proc_data := proc_data st;
     mem_data := mem_data st; system_info := system_info st |}.

Definition append_lpar (parts : list string) (st : scan_state) : scan_state :=
  {| os_type := os_type st; lpar_data := lpar_data st ++ [parts];
     proc_data := proc_data st; mem_data := mem_data st;
     system_info := system_info st |}.

Definition append_proc (parts : list string) (st : scan_state) : scan_state :=
  {| os_type := os_type st; lpar_data := lpar_data st;
     proc_data := proc_data st ++ [parts]; mem_data := mem_data st;
     system_info := system_info st |}.

Definition append_mem (parts : list string) (st : scan_state) : scan_state :=
  {| os_type := os_type st; lpar_data := lpar_data st;
     proc_data := proc_data st; mem_data := mem_data st ++ [parts];
     system_info := system_info st |}.

Definition set_info (info : gmap string string) (st : scan_state) : scan_state :=
  {| os_type := os_type st; lpar_data := lpar_data st;
     proc_data := proc_data st; mem_data := mem_data st;
     system_info := info |}.

(** The body of [for line in lines]. *)
Definition scan_line (line : string) (st : scan_state) : M scan_state :=
  if startswith line "AAA,AIX" then ret (set_os AIX st)
  else if startswith line "LPAR,T" then
    let parts := split comma (strip line) in
    if (14 <=? length parts)%nat then ret (append_lpar parts st)
    else _ <- print (WarnLparFormat (strip line)) ;; ret st
  else if startswith line "PROC,T" then
    let parts := split comma (strip line) in
    if (3 <=? length parts)%nat then ret (append_proc parts st)
    else _ <- print (WarnProcFormat (strip line)) ;; ret st
  else if startswith line "MEM,T" then
    let parts := split comma (strip line) in
    if (8 <=? length parts)%nat then ret (append_mem parts st)
    else ret st
  else
    info <- lift (parse_system_info line (system_info st)) ;;
    ret (set_info info st).

Fixpoint scan (lines : list string) (st : scan_state) : M scan_state :=
  match lines with
  | [] => ret st
  | line :: rest => st' <- scan_line line st ;; scan rest st'
  end.

(** [system_info.get(key, "N/A")] *)
Definition get_info (info : gmap string string) (key : string) : string :=
  default "N/A" (info !! key).

(** [open(file_path, ...).readlines()]: Latin-1 decodes every byte, so
    only opening the file can fail. *)
Definition readlines (fs : string -> option (list string)) (file_path : string)
  : result (list string) :=
  match fs file_path with
  | Some lines => Ok lines
  | None => Raise (OSError file_path)
  end.

(** The run-queue 95th percentile: [np.nan] unless PROC records exist. *)
Definition run_queue (proc_data : list (list string)) : result float :=
  match proc_data with
  | [] => Ok NaN
  | _ => s <~ float_iloc proc_data 2 ;; Ok (quantile q95 s)
  end.

Definition cpu_usage_col_index (o : os) : nat :=
  match o with AIX => 2%nat | Linux => 10%nat end.

(** [calculate_aix_metrics if os_type == 'AIX' else
    calculate_linux_metrics] *)
Definition metrics_func (o : os) : DataFrame -> M (list value) :=
  match o with
  | AIX => calculate_aix_metrics
  | Linux => calculate_linux_metrics
  end.

(** The statements of [process_nmon_file] after the scan. *)
Definition summarise (file_path : string) (st : scan_state)
  : M (option (list value)) :=
  match lpar_data st with
  | [] => _ <- print (WarnNoLpar file_path) ;; ret None
  | _ =>
      let lpar_df : DataFrame := lpar_data st in
      let mem_df : DataFrame := mem_data st in
      metrics <- metrics_func (os_type st) lpar_df ;;
      rq <- lift (run_queue (proc_data st)) ;;
      cpu_usage <- lift (float_iloc lpar_df (cpu_usage_col_index (os_type st))) ;;
      let percentile_cpu := quantile q95 cpu_usage in
      memory_metrics <- calculate_memory_metrics mem_df (os_type st) ;;
      let data_extracted_date := get_info (system_info st) "Date" in
      let lpar_name := get_info (system_info st) "LPAR Name" in
      let machine_model := get_info (system_info st) "System Model" in
      let machine_serial := get_info (system_info st) "Machine Serial Number" in
      let processor_type := get_info (system_info st) "Processor Type" in
      ret (Some ([VStr data_extracted_date; VStr lpar_name; VStr machine_model;
                  VStr machine_serial; VStr processor_type]
                 ++ metrics ++ [VFloat percentile_cpu; VFloat rq]
                 ++ memory_metrics))
  end.

(** The [try] block of [process_nmon_file], from the lines read. *)
Definition process_lines (file_path : string) (lines : list string)
  : M (option (list value)) :=
  st <- scan lines initial_state ;;
  summarise file_path st.

(** The handler at the end of [process_nmon_file]. *)
Definition on_error (file_path : string) (e : exn) : M (option (list value)) :=
  _ <- print (ErrProcessing file_path e) ;; ret None.

Definition process_nmon_file (fs : string -> option (list string))
  (file_path : string) : M (option (list value)) :=
  try_except
    (lines <- lift (readlines fs file_path) ;;
     process_lines file_path lines)
    (on_error file_path).

(** *** [main] *)

Definition folder_path : string := "./NMON_Reports/".
Definition output_file : string := "nmon_summary.xlsx".

(** [os.path.join(folder, name)] for a folder that ends with a slash. *)
Definition path_join (folder name : string) : string :=
  if startswith name "/" then name else folder ++ name.

Definition columns : list string :=
  ["nmonfile"; "Date"; "LPAR Name"; "System Model"; "Machine Serial Number";
   "Processor Type"; "Snapshots"; "VP"; "Entitled CPU"; "VP:E"; "Pool CPU";
   "Pool Idle"; "Weight"; "Capped"; "Total CPU"; "Min CPU"; "Avg CPU";
   "Max CPU"; "95 Percentile CPU"; "Run Queue 95"; "Count Mem";
   "Mim MEM Used"; "Avg MEM Used"; "Max MEM Used"; "95 percentile GB"].

(** The loop of [main] over [os.listdir(folder_path)]. *)
Fixpoint collect (fs : string -> option (list string)) (names : list string)
  (all_results : list (list value)) : M (list (list value)) :=
  match names with
  | [] => ret all_results
  | filename :: rest =>
      if endswith filename ".nmon" then
        let full_path := path_join folder_path filename in
        result <- process_nmon_file fs full_path ;;
        match result with
        | Some (c :: row) =>
            collect fs rest (all_results ++ [VStr filename :: c :: row])
        | _ => collect fs rest all_results
        end
      else collect fs rest all_results
  end.

(** The DataFrame [main] builds: its column names and its rows. *)
Definition table : Type := (list string * list (list value))%type.

(** [main].  [listdir] is [os.listdir], which raises when the folder
    cannot be listed, and [to_excel] is the writer of the table; no
    handler surrounds either call. *)
Definition main (listdir : string -> result (list string))
  (fs : string -> option (list string))
  (to_excel : string -> table -> result unit) : M unit :=
  names <- lift (listdir folder_path) ;;
  all_results <- collect fs names [] ;;
  results_df <- lift (with_columns all_results columns) ;;
  lift (to_excel output_file results_df).

End Nmon.

(* ===================================================================== *)
(** ** Vocabulary of the statements *)
(* ===================================================================== *)

Module NmonSpec.
Import PyStr PyExn PyFloat Pandas Nmon.

(** A line that starts with [AAA,AIX]. *)
Definition is_aix_signature (line : string) : bool := startswith line "AAA,AIX".

(** The fields of a line that starts with [tag] and has at least
    [width] of them once stripped and split on commas. *)
Definition record_of (tag : string) (width : nat) (line : string)
  : option (list string) :=
  if startswith line tag then
    let parts := split comma (strip line) in
    if (width <=? length parts)%nat then Some parts else None
  else None.

(** The records a whole file retains, by kind, in file order. *)
Definition lpar_records (lines : list string) : list (list string) :=
  omap (record_of "LPAR,T" 14) lines.
Definition proc_records (lines : list string) : list (list string) :=
  omap (record_of "PROC,T" 3) lines.
Definition mem_records (lines : list string) : list (list string) :=
  omap (record_of "MEM,T" 8) lines.

(** The flavor of a file: AIX when some line is a signature. *)
Definition flavor (lines : list string) : os :=
  if existsb is_aix_signature lines then AIX else Linux.

(** A line that reaches the Header Extractor. *)
Definition is_header_line (line : string) : bool :=
  negb (startswith line "AAA,AIX" || startswith line "LPAR,T"
        || startswith line "PROC,T" || startswith line "MEM,T").

(** The text after the last colon, stripped of white space and of
    double quotes. *)
Definition colon_tail (line : string) : string :=
  strip_char dquote (strip (List.last (split colon line) EmptyString)).

(** A header line whose marker is present but whose field is not:
    the first marker found decides. *)
Definition malformed_header (line : string) : bool :=
  if contains "AAA,date" line then (length (split comma line) <? 3)%nat
  else if contains "lparname" line then (length (split comma line) <? 4)%nat
  else if contains "System Model:" line then
    (length (split comma (colon_tail line)) <? 2)%nat
  else if contains "Machine Serial Number:" line then false
  else if contains "Processor Type:" line then
    (length (split underscore (colon_tail line)) <? 2)%nat
  else false.

(** The cell of [row] at [k] converts to a number. *)
Definition cell_converts (k : nat) (row : list string) : bool :=
  match nth_error row k with
  | Some t => match py_float t with Some _ => true | None => false end
  | None => false
  end.

(** The number in the cell of [row] at [k]; NaN when it has none. *)
Definition cell_float (k : nat) (row : list string) : float :=
  match nth_error row k with
  | Some t => default NaN (py_float t)
  | None => NaN
  end.

(** The five identity cells of a result tuple. *)
Definition identity_cells (info : gmap string string) : list value :=
  [VStr (get_info info "Date"); VStr (get_info info "LPAR Name");
   VStr (get_info info "System Model");
   VStr (get_info info "Machine Serial Number");
   VStr (get_info info "Processor Type")].







(** A series of [n] cells equal to [c] has mean [c] and 95th
    percentile [c]. *)
Definition constant_agrees (c : float) (n : nat) : bool :=
  PrimFloat.Leibniz.eqb (mean (repeat c n)) c
  && PrimFloat.Leibniz.eqb (quantile q95 (repeat c n)) c.

(** The number of samples up to which the two facts above are checked
    by evaluation. *)
Definition checked_samples : nat := 4096.

(** The column names as the specification lists them. *)
Definition spec_columns : list string :=
  ["nmonfile"; "Date"; "LPAR Name"; "System Model"; "Machine Serial Number";
   "Processor Type"; "Snapshots"; "VP"; "Entitled CPU"; "VP:E"; "Pool CPU";
   "Pool Idle"; "Weight"; "Capped"; "Total CPU"; "Min CPU"; "Avg CPU";
   "Max CPU"; "95 Percentile CPU"; "Run Queue 95"; "Count Mem";
   "Min MEM Used"; "Avg MEM Used"; "Max MEM Used"; "95 percentile GB"].

(** The columns each reducer reads, in the order it reads them. *)
Definition aix_columns : list nat := [2; 3; 6; 5; 8; 7; 12]%nat.
Definition linux_columns : list nat := [2; 13; 10; 8; 21; 16; 4]%nat.

(** Some cell of column [k] holds a string that is not a number. *)
Definition non_numeric_in (k : nat) (df : DataFrame) : Prop :=
  exists row t, In row df /\ nth_error row k = Some t /\ py_float t = None.

(** The used memory of one MEM record: column 6 minus column 4 on
    AIX, column 2 minus column 7 on Linux. *)
Definition used_of (o : os) (row : list string) : float :=
  match o with
  | AIX => fsub (cell_float 6 row) (cell_float 4 row)
  | Linux => fsub (cell_float 2 row) (cell_float 7 row)
  end.

(** The [try] block of the reducer of each flavor. *)
Definition metrics_body (o : os) : DataFrame -> result (list value) :=
  match o with
  | AIX => aix_metrics_body
  | Linux => linux_metrics_body
  end.


Definition newline : string := String "010"%char EmptyString.

End NmonSpec.

(* ===================================================================== *)
(** ** Sample files *)
(* ===================================================================== *)

Module Samples.
Import PyStr PyExn PyFloat Pandas Nmon NmonSpec.

Definition line (text : string) : string := (text +:+ newline)%string.

(** An LPAR line of fourteen fields with CPU% [cpu] in columns 2 and
    10. *)
Definition lpar_line (cpu : string) : string :=
  line ("LPAR,T0001," +:+ cpu +:+ ",2,0,4,1.5,128,3,0," +:+ cpu +:+ ",0,1,2").

(** An LPAR line of twenty-two numeric fields. *)
Definition lpar_line_22 : string :=
  line "LPAR,T0001,10,2,1,4,1.5,128,300,0,20,0,1,2,0,0,5,0,0,0,0,7".

Definition aix_signature : string := line "AAA,AIX,7.2".

(** The signature comes after the first LPAR line. *)
Definition late_signature : list string :=
  [lpar_line "10"; aix_signature; lpar_line "20"].

(** Five AIX samples with CPU% 10, 20, 30, 40 and 50. *)
Definition five_samples : list string :=
  [aix_signature; lpar_line "10"; lpar_line "20"; lpar_line "30";
   lpar_line "40"; lpar_line "50"].


(** A run-queue value that is not a number. *)
Definition bad_run_queue : list string :=
  [lpar_line "10"; line "PROC,T0001,abc,1"].

(** A run-queue value with the separator FS (code 28) before its
    digit: [str.strip] would remove it, [float] does not. *)
Definition fs_char : string := String "028"%char EmptyString.
Definition control_run_queue : list string :=
  [lpar_line_22; line ("PROC,T0001," +:+ fs_char +:+ "5,1")].

(** PROC records whose run queue is zero in every sample. *)
Definition zero_run_queue : list string :=
  [lpar_line_22; line "PROC,T0001,0,1"; line "PROC,T0002,0.0,1";
   line "PROC,T0003,0,1"].

(** A CPU% value that is not a number, on AIX (column 2) and on Linux
    (column 10). *)
Definition bad_cpu_aix : list string :=
  [aix_signature; line "LPAR,T0001,n/a,2,0,4,1.5,128,3,0,10,0,1,2"].
Definition bad_cpu_linux : list string :=
  [line "LPAR,T0001,10,2,0,4,1.5,128,3,0,n/a,0,1,2"].

(** Reducer columns that are not numbers, but a numeric CPU column. *)
Definition bad_reducer_columns : list string :=
  [aix_signature; line "LPAR,T0001,10,x,0,4,1.5,128,3,0,10,0,1,2";
   line "MEM,T0001,1,2,3,4,y,7"].

(** Header lines whose marker is there and whose field is not. *)
Definition short_lparname : string := line "AAA,lparname,host1".
Definition short_system_model : string := line "AAA,System Model: IBM 9009".
Definition bad_header : list string := [lpar_line "10"; short_lparname].

(** No LPAR line and a header line without its field. *)
Definition no_lpar_bad_header : list string :=
  [short_lparname; line "PROC,T0001,1,2"].

(** Header lines with every field. *)
Definition good_headers : list string :=
  [line "AAA,date,01-JAN-2024"; line "AAA,x,y,lparname,host1";
   line "AAA,System Model: IBM,9009-22A";
   line "AAA,Machine Serial Number: 12345";
   line "AAA,Processor Type: PowerPC_POWER9"].




(** A folder holding one file. *)
Definition one_file (name : string) (content : list string)
  : string -> option (list string) :=
  fun path =>
    if String.eqb path (path_join folder_path name) then Some content else None.

End Samples.

(* ===================================================================== *)
(** ** Vocabulary of the further properties *)
(* ===================================================================== *)

Module NmonMore.
Import PyStr PyExn PyFloat Pandas Nmon NmonSpec.

(** What the scan prints for one line: a warning for an LPAR or PROC
    line with too few fields, nothing otherwise. *)
Definition scan_warning (line : string) : option message :=
  if startswith line "AAA,AIX" then None
  else if startswith line "LPAR,T" then
    if (14 <=? length (split comma (strip line)))%nat then None
    else Some (WarnLparFormat (strip line))
  else if startswith line "PROC,T" then
    if (3 <=? length (split comma (strip line)))%nat then None
    else Some (WarnProcFormat (strip line))
  else None.

(** The key and the value the Header Extractor stores for a line; no
    pair for a line without marker. *)
Definition header_field (line : string) : result (option (string * string)) :=
  if contains "AAA,date" line then
    v <~ item (split comma line) 2 ;; Ok (Some ("Date", v))
  else if contains "lparname" line then
    v <~ item (split comma line) 3 ;; Ok (Some ("LPAR Name", strip v))
  else if contains "System Model:" line then
    v <~ item (split comma (colon_tail line)) 1 ;; Ok (Some ("System Model", v))
  else if contains "Machine Serial Number:" line then
    Ok (Some ("Machine Serial Number", colon_tail line))
  else if contains "Processor Type:" line then
    v <~ item (split underscore (colon_tail line)) 1 ;;
    Ok (Some ("Processor Type", v))
  else Ok None.

Definition store (kv : option (string * string)) (info : gmap string string)
  : gmap string string :=
  match kv with
  | Some (k, v) => <[k := v]> info
  | None => info
  end.

(** The keys of SystemInfo. *)
Definition info_keys : list string :=
  ["Date"; "LPAR Name"; "System Model"; "Machine Serial Number";
   "Processor Type"].

(** The pair a line of the file writes: none for a metric line, which
    never reaches the Header Extractor. *)
Definition written (line : string) : option (string * string) :=
  if is_header_line line then
    match header_field line with
    | Ok kv => kv
    | Raise _ => None
    end
  else None.

Definition written_key (line : string) : option string :=
  option_map fst (written line).

(** No header line of the file is malformed. *)
Definition headers_well_formed (lines : list string) : bool :=
  forallb (fun line => negb (is_header_line line && malformed_header line)) lines.

(** The file gets a result tuple. *)
Definition produces_result (lines : list string) : bool :=
  headers_well_formed lines
  && negb (Nat.eqb (length (lpar_records lines)) 0)
  && forallb (cell_converts 2) (proc_records lines)
  && forallb (cell_converts (cpu_usage_col_index (flavor lines)))
       (lpar_records lines).



(** The columns a metric reducer reads and the number of fields a
    record needs to have them all. *)
Definition reducer_columns (o : os) : list nat :=
  match o with AIX => aix_columns | Linux => linux_columns end.

Definition reducer_width (o : os) : nat :=
  match o with AIX => 13%nat | Linux => 22%nat end.

Definition is_string (v : value) : bool :=
  match v with VStr _ => true | _ => false end.

(** The call returned a result tuple. *)
Definition has_result (m : M (option (list value))) : bool :=
  match snd m with
  | Ok (Some _) => true
  | _ => false
  end.

(** The two messages that tell a file was skipped. *)
Definition is_skip_message (m : message) : bool :=
  match m with
  | WarnNoLpar _ | ErrProcessing _ _ => true
  | _ => false
  end.

Definition no_skip_message (out : list message) : bool :=
  forallb (fun m => negb (is_skip_message m)) out.

End NmonMore.

Import PyStr PyExn PyFloat Pandas Nmon NmonSpec.
Import NmonMore.

(** Closed goals over the sample files: a [Forall] over an explicit
    list, each member settled by evaluation. *)
Ltac eval_list :=
  match goal with
  | |- List.Forall ?P ?l =>
      let l' := eval vm_compute in l in change (List.Forall P l')
  end.

Ltac check_all :=
  repeat (cbv beta;
          first [ progress eval_list
                | apply List.Forall_nil
                | apply List.Forall_cons
                | vm_compute; reflexivity
                | cbn [length]; lia ]).

(* ===================================================================== *)
(** ** The monad *)
(* ===================================================================== *)

Section MonadFacts.
Context {A B : Type}.

Lemma bind_ok (out : list message) (a : A) (k : A -> M B) :
  bind (out, Ok a) k = (out ++ fst (k a), snd (k a)).
Proof. unfold bind. by destruct (k a). Qed.

Lemma bind_raise (out : list message) (e : exn) (k : A -> M B) :
  bind (out, Raise e) k = (out, Raise e).
Proof. reflexivity. Qed.

Lemma bind_ret (a : A) (k : A -> M B) : bind (ret a) k = k a.
Proof. unfold bind, ret. by destruct (k a). Qed.

Lemma bind_lift_ok (a : A) (k : A -> M B) : bind (lift (Ok a)) k = k a.
Proof. apply bind_ret. Qed.

Lemma bind_lift_raise (e : exn) (k : A -> M B) :
  bind (lift (Raise e)) k = ([], Raise e).
Proof. reflexivity. Qed.

(** A reducer's [try]/[except]: the values of the body, or the
    message and the fallback. *)
Lemma try_except_fallback (body : result A) (mk : exn -> message) (z : A) :
  try_except (lift body) (fun e => bind (print (mk e)) (fun _ => ret z)) =
  match body with
  | Ok v => ([], Ok v)
  | Raise e => ([mk e], Ok z)
  end.
Proof. by destruct body. Qed.

End MonadFacts.

(* ===================================================================== *)
(** ** [float64]: order and evaluation *)
(* ===================================================================== *)

Section FloatFacts.

(** The comparisons of binary64 numbers, case by case on their
    specification. *)
Ltac sf_order :=
  unfold SFeqb, SFleb, SFltb, SFcompare;
  repeat match goal with
         | x : spec_float |- _ => destruct x
         end;
  change (PosDef.Pos.compare_cont Eq) with Pos.compare;
  repeat match goal with
         | b : bool |- _ => destruct b
         end;
  repeat match goal with
         | |- context [(?a ?= ?b)%Z] => destruct (Z.compare_spec a b)
         | |- context [(?a ?= ?b)%positive] => destruct (Pos.compare_spec a b)
         end;
  cbn; intros; subst; try reflexivity; try discriminate; try lia.


Lemma SFleb_trans (x y z : spec_float) :
  SFleb x y = true -> SFleb y z = true -> SFleb x z = true.
Proof. sf_order. Qed.

Lemma SFleb_refl (x : spec_float) : SFeqb x x = true -> SFleb x x = true.
Proof. sf_order. Qed.

Lemma SFltb_leb (x y : spec_float) : SFltb x y = true -> SFleb x y = true.
Proof. sf_order. Qed.

Lemma SFltb_false_leb (x y : spec_float) :
  SFeqb x x = true -> SFeqb y y = true -> SFltb x y = false -> SFleb y x = true.
Proof. sf_order. Qed.

Lemma isnan_spec (x : float) : isnan x = negb (SFeqb (Prim2SF x) (Prim2SF x)).
Proof. unfold isnan, is_nan. by rewrite FloatAxioms.eqb_spec. Qed.

Lemma not_nan_spec (x : float) :
  isnan x = false -> SFeqb (Prim2SF x) (Prim2SF x) = true.
Proof. rewrite isnan_spec. apply negb_false_iff. Qed.


Lemma fleb_trans (x y z : float) :
  fleb x y = true -> fleb y z = true -> fleb x z = true.
Proof. unfold fleb. rewrite !FloatAxioms.leb_spec. apply SFleb_trans. Qed.

Lemma fleb_refl (x : float) : isnan x = false -> fleb x x = true.
Proof.
  intros Hx. unfold fleb. rewrite FloatAxioms.leb_spec.
  by apply SFleb_refl, not_nan_spec.
Qed.

Lemma fltb_fleb (x y : float) : fltb x y = true -> fleb x y = true.
Proof.
  unfold fltb, fleb. rewrite FloatAxioms.ltb_spec, FloatAxioms.leb_spec.
  apply SFltb_leb.
Qed.

Lemma fltb_false_fleb (x y : float) :
  isnan x = false -> isnan y = false -> fltb x y = false -> fleb y x = true.
Proof.
  intros Hx Hy. unfold fltb, fleb.
  rewrite FloatAxioms.ltb_spec, FloatAxioms.leb_spec.
  apply SFltb_false_leb; by apply not_nan_spec.
Qed.

Lemma float_eqb_eq (x y : float) : PrimFloat.Leibniz.eqb x y = true -> x = y.
Proof. apply FloatAxioms.Leibniz.eqb_spec. Qed.

Lemma isnan_NaN : isnan NaN = true.
Proof. reflexivity. Qed.

Lemma isnan_zero : isnan zero = false.
Proof. reflexivity. Qed.

Lemma NaN_not_zero : NaN <> zero.
Proof. intros H. apply (f_equal isnan) in H. discriminate. Qed.

(** [float] on sample texts: blanks and the Unicode spaces are
    trimmed, the separators FS to US are not; the value is the float
    nearest to the decimal, an infinity when it is too large and zero
    when it is too small. *)
Lemma py_float_examples :
  py_float " 5 " = Some 5%float /\
  py_float (String "160"%char "5") = Some 5%float /\
  py_float (Samples.fs_char +:+ "5") = None /\
  py_float (String "029"%char "5") = None /\
  py_float ("5" +:+ String "031"%char EmptyString) = None /\
  py_float "0.1" = Some 0.1%float /\
  py_float "2048.2" = Some 2048.2%float /\
  py_float "1_000.5e-1" = Some 100.05%float /\
  py_float "1e400" = Some PrimFloat.infinity /\
  py_float "1e-400" = Some zero /\
  py_float "-inf" = Some PrimFloat.neg_infinity /\
  py_float "nan" = Some NaN /\
  py_float EmptyString = None /\ py_float "1e" = None /\ py_float "0x10" = None /\
  py_float "1 2" = None /\ py_float "n/a" = None.
Proof. repeat split; vm_compute; reflexivity. Qed.

(** Arithmetic rounds as [float64] does. *)
Lemma float_examples :
  fsub 2048.2%float 0.2%float = 2047.9999999999998%float /\
  fmul (fdiv 2%float 1.5%float) (of_Z 100) = 133.33333333333331%float /\
  mean [0.1; 0.1; 0.1]%float = 0.10000000000000002%float /\
  quantile q95 [1e308; -1e308]%float = PrimFloat.neg_infinity /\
  quantile q95 [5]%float = 5%float.
Proof. repeat split; vm_compute; reflexivity. Qed.

(** The quantile pandas hands to numpy: [0.95 * 100 / 100]. *)
Lemma q95_round_trip : fdiv (fmul q95 100%float) 100%float = q95.
Proof. reflexivity. Qed.



(** Up to [checked_samples] samples a series of zeros, and one of
    2048s, has its own value as mean and as percentile. *)
Lemma constant_checked :
  forallb (constant_agrees zero) (seq 1 checked_samples) = true /\
  forallb (constant_agrees (of_Z 2048)) (seq 1 checked_samples) = true.
Proof. split; vm_compute; reflexivity. Qed.

Lemma constant_agrees_spec (c : float) (n : nat) :
  constant_agrees c n = true ->
  mean (repeat c n) = c /\ quantile q95 (repeat c n) = c.
Proof.
  unfold constant_agrees. intros H. apply andb_true_iff in H.
  destruct H as [H1 H2]. split; by apply float_eqb_eq.
Qed.

Lemma constant_zero (n : nat) :
  (1 <= n <= checked_samples)%nat ->
  mean (repeat zero n) = zero /\ quantile q95 (repeat zero n) = zero.
Proof.
  intros Hn. apply constant_agrees_spec.
  apply (proj1 (forallb_forall _ _) (proj1 constant_checked)).
  apply in_seq. lia.
Qed.


Lemma Forall_eq_repeat {X : Type} (c : X) (l : list X) :
  List.Forall (fun x => x = c) l -> l = repeat c (length l).
Proof. induction 1 as [|x l -> _ IH]; cbn; [reflexivity|]. by rewrite <- IH. Qed.

End FloatFacts.

(* ===================================================================== *)
(** ** The scan of [process_nmon_file] *)
(* ===================================================================== *)

Section ScanFacts.

Lemma startswith_head_excl (a b : ascii) (p q line : string) :
  a <> b ->
  startswith line (String a p) = true ->
  startswith line (String b q) = false.
Proof.
  unfold startswith. intros Hab. destruct line as [|c line]; simpl.
  - discriminate.
  - destruct (ascii_dec a c) as [->|Ha]; [|discriminate].
    intros _. destruct (ascii_dec b c) as [->|Hb]; [congruence|reflexivity].
Qed.

Lemma record_of_excl (a b : ascii) (p q line : string) (w : nat) :
  a <> b ->
  startswith line (String a p) = true ->
  record_of (String b q) w line = None.
Proof.
  intros Hab Hp. unfold record_of.
  by rewrite (startswith_head_excl a b p q line Hab Hp).
Qed.

Ltac other_tags H :=
  repeat match goal with
         | |- context [record_of (String ?b ?q) ?w ?line] =>
             match type of H with
             | startswith line (String ?a ?p) = true =>
                 rewrite (record_of_excl a b p q line w ltac:(discriminate) H)
             end
         end.

(** What one line does to the variables of the scan, when the Header
    Extractor does not raise. *)
Lemma scan_line_ok (line : string) (st st' : scan_state) (out : list message) :
  scan_line line st = (out, Ok st') ->
  os_type st' = (if is_aix_signature line then AIX else os_type st) /\
  lpar_data st' = lpar_data st ++ omap (record_of "LPAR,T" 14) [line] /\
  proc_data st' = proc_data st ++ omap (record_of "PROC,T" 3) [line] /\
  mem_data st' = mem_data st ++ omap (record_of "MEM,T" 8) [line].
Proof.
  unfold scan_line, is_aix_signature. cbn [omap list_omap].
  destruct (startswith line "AAA,AIX") eqn:Haix.
  { intros [= <- <-]. cbn.
    other_tags Haix.
    by rewrite !app_nil_r. }
  destruct (startswith line "LPAR,T") eqn:Hlpar.
  { other_tags Hlpar. unfold record_of. rewrite Hlpar.
    destruct (14 <=? _)%nat; intros [= <- <-]; cbn; by rewrite ?app_nil_r. }
  destruct (startswith line "PROC,T") eqn:Hproc.
  { other_tags Hproc. unfold record_of. rewrite Hproc.
    destruct (3 <=? _)%nat; intros [= <- <-]; cbn; by rewrite ?app_nil_r. }
  destruct (startswith line "MEM,T") eqn:Hmem.
  { unfold record_of. rewrite Hlpar, Hproc, Hmem.
    destruct (8 <=? _)%nat; intros [= <- <-]; cbn; by rewrite ?app_nil_r. }
  unfold record_of. rewrite Hlpar, Hproc, Hmem.
  destruct (parse_system_info line (system_info st)) as [info|e]; cbn.
  - intros [= <- <-]. cbn. by rewrite !app_nil_r.
  - discriminate.
Qed.

Lemma omap_cons_app {X Y : Type} (f : X -> option Y) (x : X) (l : list X) :
  omap f (x :: l) = omap f [x] ++ omap f l.
Proof. cbn. by destruct (f x). Qed.

(** The scan of a whole list of lines, from any starting state. *)
Lemma scan_ok (lines : list string) :
  forall (st st' : scan_state) (out : list message),
    scan lines st = (out, Ok st') ->
    os_type st' = (if existsb is_aix_signature lines then AIX else os_type st) /\
    lpar_data st' = lpar_data st ++ lpar_records lines /\
    proc_data st' = proc_data st ++ proc_records lines /\
    mem_data st' = mem_data st ++ mem_records lines.
Proof.
  unfold lpar_records, proc_records, mem_records.
  induction lines as [|line rest IH]; intros st st' out; cbn [scan].
  - intros [= <- <-]. cbn. by rewrite !app_nil_r.
  - destruct (scan_line line st) as [out1 [st1|e]] eqn:Hline; [|discriminate].
    rewrite bind_ok. destruct (scan rest st1) as [out2 r] eqn:Hrest.
    cbn [fst snd]. intros [= <- ->].
    destruct (scan_line_ok _ _ _ _ Hline) as (Hos & Hl & Hp & Hm).
    destruct (IH _ _ _ Hrest) as (Hos' & Hl' & Hp' & Hm').
    rewrite Hos', Hl', Hp', Hm', Hos, Hl, Hp, Hm.
    rewrite !(omap_cons_app _ line rest), <- !app_assoc. cbn [existsb].
    repeat split; try done.
    by destruct (is_aix_signature line), (existsb is_aix_signature rest).
Qed.

(** The scan raises only through the Header Extractor, hence only
    [IndexError]. *)
Lemma parse_system_info_raises (line : string) (info : gmap string string) (e : exn) :
  parse_system_info line info = Raise e -> e = IndexError.
Proof.
  unfold parse_system_info, after_last_colon, item, last_item.
  repeat (cbn [rbind];
          match goal with
          | |- context [if ?b then _ else _] => destruct b
          | |- context [nth_error ?l ?n] => destruct (nth_error l n)
          | |- context [rev ?l] => destruct (rev l)
          end); cbn [rbind]; congruence.
Qed.

End ScanFacts.

(* ===================================================================== *)
(** ** Columns and their conversion *)
(* ===================================================================== *)

Section ColumnFacts.

Lemma ncols_ge (df : DataFrame) (row : list string) :
  In row df -> (length row <= ncols df)%nat.
Proof.
  induction df as [|r df IH]; cbn; [tauto|].
  intros [->|Hin]; [apply Nat.le_max_l|].
  specialize (IH Hin). pose proof (Nat.le_max_r (length r) (ncols df)).
  unfold ncols in *. lia.
Qed.

Lemma ncols_lt (df : DataFrame) (n : nat) :
  (0 < n)%nat -> Forall (fun row => (length row < n)%nat) df -> (ncols df < n)%nat.
Proof.
  intros Hn. induction 1 as [|r df Hr _ IH]; cbn; [lia|].
  apply Nat.max_lub_lt; [lia|exact IH].
Qed.

Lemma ncols_nil : ncols [] = 0%nat.
Proof. reflexivity. Qed.

Lemma astype_float_length (s : ObjSeries) (xs : Series) :
  astype_float s = Ok xs -> length xs = length s.
Proof.
  revert xs. induction s as [|[t|] s IH]; intros xs; cbn.
  - by intros [= <-].
  - destruct (py_float t); [|discriminate].
    destruct (astype_float s); cbn; [|discriminate].
    intros [= <-]. cbn. by rewrite (IH _ eq_refl).
  - destruct (astype_float s); cbn; [|discriminate].
    intros [= <-]. cbn. by rewrite (IH _ eq_refl).
Qed.

(** Every cell present and a number: the column converts, cell by
    cell. *)
Lemma astype_float_column (k : nat) (df : DataFrame) :
  Forall (fun row => cell_converts k row = true) df ->
  astype_float (column df k) = Ok (map (cell_float k) df).
Proof.
  unfold column. induction 1 as [|row df Hrow _ IH]; [reflexivity|].
  cbn. unfold cell_converts, cell_float in *.
  destruct (nth_error row k) as [t|]; [|discriminate].
  destruct (py_float t); [|discriminate]. by rewrite IH.
Qed.

(** One string that is not a number: the conversion raises
    [ValueError]. *)
Lemma astype_float_raises (s : ObjSeries) (t : string) :
  In (Some t) s -> py_float t = None ->
  exists t', astype_float s = Raise (ValueError t').
Proof.
  intros Hin Ht. induction s as [|c s IH]; [destruct Hin|].
  destruct Hin as [->|Hin]; cbn.
  - rewrite Ht. eauto.
  - destruct (IH Hin) as [t' Ht']. rewrite Ht'.
    destruct c as [u|]; [destruct (py_float u)|]; cbn; eauto.
Qed.

Lemma column_In (df : DataFrame) (k : nat) (row : list string) (t : string) :
  In row df -> nth_error row k = Some t -> In (Some t) (column df k).
Proof.
  intros Hin Hk. unfold column. rewrite <- Hk.
  exact (in_map (fun r => nth_error r k) df row Hin).
Qed.

Lemma float_iloc_column (k : nat) (df : DataFrame) :
  df <> [] ->
  Forall (fun row => cell_converts k row = true) df ->
  float_iloc df k = Ok (map (cell_float k) df).
Proof.
  intros Hne Hall. unfold float_iloc, iloc.
  destruct df as [|row df]; [done|].
  assert (Hk : (k < ncols (row :: df))%nat).
  { apply Forall_inv in Hall. unfold cell_converts in Hall.
    destruct (nth_error row k) eqn:E; [|discriminate].
    assert (k < length row)%nat by (apply nth_error_Some; congruence).
    pose proof (ncols_ge (row :: df) row (or_introl eq_refl)). lia. }
  apply Nat.ltb_lt in Hk. rewrite Hk. cbn [rbind].
  by apply astype_float_column.
Qed.

Lemma float_col_column (k : nat) (df : DataFrame) :
  df <> [] ->
  Forall (fun row => cell_converts k row = true) df ->
  float_col df k = Ok (map (cell_float k) df).
Proof.
  intros Hne Hall. pose proof (float_iloc_column k df Hne Hall) as H.
  unfold float_iloc, float_col, iloc, getitem in *.
  destruct (k <? ncols df)%nat; [exact H|discriminate].
Qed.

Lemma float_iloc_raises (k : nat) (df : DataFrame) :
  non_numeric_in k df -> exists e, float_iloc df k = Raise e.
Proof.
  intros (row & t & Hin & Hk & Ht). unfold float_iloc, iloc.
  destruct (k <? ncols df)%nat; cbn [rbind]; [|eauto].
  destruct (astype_float_raises _ t (column_In _ _ _ _ Hin Hk) Ht) as [t' ->].
  eauto.
Qed.

Lemma float_col_raises (k : nat) (df : DataFrame) :
  non_numeric_in k df -> exists e, float_col df k = Raise e.
Proof.
  intros (row & t & Hin & Hk & Ht). unfold float_col, getitem.
  destruct (k <? ncols df)%nat; cbn [rbind]; [|eauto].
  destruct (astype_float_raises _ t (column_In _ _ _ _ Hin Hk) Ht) as [t' ->].
  eauto.
Qed.

Lemma float_col_missing (k : nat) (df : DataFrame) :
  (ncols df <= k)%nat -> float_col df k = Raise (KeyError k).
Proof.
  intros H. unfold float_col, getitem.
  apply Nat.ltb_ge in H. by rewrite H.
Qed.

Lemma float_iloc_missing (k : nat) (df : DataFrame) :
  (ncols df <= k)%nat -> float_iloc df k = Raise IndexError.
Proof.
  intros H. unfold float_iloc, iloc.
  apply Nat.ltb_ge in H. by rewrite H.
Qed.

Lemma float_iloc_length (df : DataFrame) (k : nat) (s : Series) :
  float_iloc df k = Ok s -> length s = length df.
Proof.
  unfold float_iloc, iloc. destruct (k <? ncols df)%nat; [|discriminate].
  cbn [rbind]. intros H. rewrite (astype_float_length _ _ H).
  apply length_map.
Qed.

End ColumnFacts.

(* ===================================================================== *)
(** ** The metric reducers *)
(* ===================================================================== *)

Section ReducerFacts.

Lemma calculate_aix_metrics_eq (data : DataFrame) :
  calculate_aix_metrics data =
  match aix_metrics_body data with
  | Ok vs => ([], Ok vs)
  | Raise e => ([ErrAixMetrics e], Ok (zeros 12))
  end.
Proof. apply try_except_fallback. Qed.

Lemma calculate_linux_metrics_eq (data : DataFrame) :
  calculate_linux_metrics data =
  match linux_metrics_body data with
  | Ok vs => ([], Ok vs)
  | Raise e => ([ErrLinuxMetrics e], Ok (zeros 12))
  end.
Proof. apply try_except_fallback. Qed.

Lemma calculate_memory_metrics_eq (mem_df : DataFrame) (o : os) :
  calculate_memory_metrics mem_df o =
  match memory_metrics_body mem_df o with
  | Ok vs => ([], Ok vs)
  | Raise e => ([ErrMemoryMetrics e], Ok (zeros 5))
  end.
Proof. apply try_except_fallback. Qed.

Lemma average_numeric (total : float) (count : nat) :
  is_numeric (average total count) = true.
Proof. unfold average. by destruct (0 <? count)%nat. Qed.

Lemma vp_e_numeric (VP E : float) : is_numeric (vp_e VP E) = true.
Proof. unfold vp_e. by destruct (fgtb E zero). Qed.

Ltac split_columns :=
  repeat match goal with
         | |- context [float_col ?d ?k] =>
             destruct (float_col d k) eqn:?; cbn [rbind]
         end.

(** A successful [try] block read every column of the reducer and
    built twelve numbers. *)
Lemma aix_metrics_body_ok (data : DataFrame) (vs : list value) :
  aix_metrics_body data = Ok vs ->
  length vs = 12%nat /\ forallb is_numeric vs = true /\
  Forall (fun k => is_ok (float_col data k) = true) aix_columns.
Proof.
  unfold aix_metrics_body, aix_columns. split_columns; try discriminate.
  intros [= <-]. cbn [length forallb is_numeric andb].
  rewrite average_numeric, vp_e_numeric.
  split; [reflexivity|]. split; [reflexivity|].
  repeat constructor;
    match goal with
    | H : ?x = Ok _ |- is_ok ?x = true => by rewrite H
    end.
Qed.

Lemma linux_metrics_body_ok (data : DataFrame) (vs : list value) :
  linux_metrics_body data = Ok vs ->
  length vs = 12%nat /\ forallb is_numeric vs = true /\
  Forall (fun k => is_ok (float_col data k) = true) linux_columns.
Proof.
  unfold linux_metrics_body, linux_columns. split_columns; try discriminate.
  intros [= <-]. cbn [length forallb is_numeric andb].
  rewrite average_numeric, vp_e_numeric.
  split; [reflexivity|]. split; [reflexivity|].
  repeat constructor;
    match goal with
    | H : ?x = Ok _ |- is_ok ?x = true => by rewrite H
    end.
Qed.

Lemma zeros_numeric (n : nat) : forallb is_numeric (zeros n) = true.
Proof. induction n; cbn; auto. Qed.

Lemma zeros_length (n : nat) : length (zeros n) = n.
Proof. apply repeat_length. Qed.

(** A column that does not convert makes the [try] block raise. *)
Lemma body_raises_of_column
  (body : result (list value)) (cols : list nat) (data : DataFrame) (k : nat) :
  (forall vs, body = Ok vs -> Forall (fun c => is_ok (float_col data c) = true) cols) ->
  In k cols ->
  (exists e, float_col data k = Raise e) ->
  exists e, body = Raise e.
Proof.
  intros Hok Hin [e He]. destruct body as [vs|e']; [|eauto].
  pose proof (proj1 (List.Forall_forall _ _) (Hok vs eq_refl) k Hin) as H.
  cbn beta in H. rewrite He in H. discriminate.
Qed.

End ReducerFacts.

(* ===================================================================== *)
(** ** The file pipeline *)
(* ===================================================================== *)

Section PipelineFacts.

(** Both metric reducers always return twelve numbers. *)
Lemma metrics_func_total (o : os) (data : DataFrame) :
  exists out vs,
    metrics_func o data = (out, Ok vs) /\
    length vs = 12%nat /\ forallb is_numeric vs = true.
Proof.
  destruct o; cbn [metrics_func].
  - rewrite calculate_aix_metrics_eq.
    destruct (aix_metrics_body data) as [vs|e] eqn:E.
    + destruct (aix_metrics_body_ok _ _ E) as (? & ? & _). eauto.
    + exists [ErrAixMetrics e], (zeros 12). auto.
  - rewrite calculate_linux_metrics_eq.
    destruct (linux_metrics_body data) as [vs|e] eqn:E.
    + destruct (linux_metrics_body_ok _ _ E) as (? & ? & _). eauto.
    + exists [ErrLinuxMetrics e], (zeros 12). auto.
Qed.

Lemma memory_metrics_body_ok (mem_df : DataFrame) (o : os) (vs : list value) :
  memory_metrics_body mem_df o = Ok vs ->
  length vs = 5%nat /\ forallb is_numeric vs = true.
Proof.
  unfold memory_metrics_body.
  destruct (memory_used mem_df o); cbn [rbind]; [|discriminate].
  by intros [= <-].
Qed.

(** The memory reducer always returns five numbers. *)
Lemma calculate_memory_metrics_total (mem_df : DataFrame) (o : os) :
  exists out vs,
    calculate_memory_metrics mem_df o = (out, Ok vs) /\
    length vs = 5%nat /\ forallb is_numeric vs = true.
Proof.
  rewrite calculate_memory_metrics_eq.
  destruct (memory_metrics_body mem_df o) as [vs|e] eqn:E.
  - destruct (memory_metrics_body_ok _ _ _ E). eauto.
  - exists [ErrMemoryMetrics e], (zeros 5). auto.
Qed.

(** No LPAR record: the warning and no result. *)
Lemma summarise_no_lpar (file_path : string) (st : scan_state) :
  lpar_data st = [] ->
  summarise file_path st = ([WarnNoLpar file_path], Ok None).
Proof. unfold summarise. by intros ->. Qed.

(** With LPAR records, [summarise] is the sequence of its four
    computations. *)
Lemma summarise_lpar (file_path : string) (st : scan_state) :
  lpar_data st <> [] ->
  summarise file_path st =
  bind (metrics_func (os_type st) (lpar_data st)) (fun metrics =>
  bind (lift (run_queue (proc_data st))) (fun rq =>
  bind (lift (float_iloc (lpar_data st) (cpu_usage_col_index (os_type st))))
    (fun cpu_usage =>
  bind (calculate_memory_metrics (mem_data st) (os_type st))
    (fun memory_metrics =>
  ret (Some (identity_cells (system_info st) ++ metrics
             ++ [VFloat (quantile q95 cpu_usage); VFloat rq]
             ++ memory_metrics)))))).
Proof.
  unfold summarise. destruct (lpar_data st) eqn:E; [done|]. reflexivity.
Qed.

(** The result tuple, when the run-queue column and the CPU column
    both convert. *)
Lemma summarise_some (file_path : string) (st : scan_state)
  (rq : float) (cpu_usage : Series) :
  lpar_data st <> [] ->
  run_queue (proc_data st) = Ok rq ->
  float_iloc (lpar_data st) (cpu_usage_col_index (os_type st)) = Ok cpu_usage ->
  exists out metrics memory_metrics,
    summarise file_path st =
      (out, Ok (Some (identity_cells (system_info st) ++ metrics
                      ++ [VFloat (quantile q95 cpu_usage); VFloat rq]
                      ++ memory_metrics))) /\
    snd (metrics_func (os_type st) (lpar_data st)) = Ok metrics /\
    snd (calculate_memory_metrics (mem_data st) (os_type st)) = Ok memory_metrics /\
    length metrics = 12%nat /\ length memory_metrics = 5%nat.
Proof.
  intros Hne Hrq Hcpu. rewrite (summarise_lpar _ _ Hne), Hrq, Hcpu.
  destruct (metrics_func_total (os_type st) (lpar_data st))
    as (out1 & metrics & -> & Hlen & _).
  destruct (calculate_memory_metrics_total (mem_data st) (os_type st))
    as (out2 & mem & -> & Hlen' & _).
  exists (out1 ++ out2), metrics, mem.
  rewrite bind_ok. cbn. rewrite app_nil_r. auto.
Qed.

(** The pipeline raises when the run-queue column does not convert. *)
Lemma summarise_rq_raises (file_path : string) (st : scan_state) (e : exn) :
  lpar_data st <> [] ->
  run_queue (proc_data st) = Raise e ->
  exists out, summarise file_path st = (out, Raise e).
Proof.
  intros Hne Hrq. rewrite (summarise_lpar _ _ Hne), Hrq.
  destruct (metrics_func_total (os_type st) (lpar_data st))
    as (out1 & metrics & -> & _).
  rewrite bind_ok. cbn. eauto.
Qed.

(** The pipeline raises when the CPU column does not convert. *)
Lemma summarise_cpu_raises (file_path : string) (st : scan_state) (e : exn) :
  lpar_data st <> [] ->
  float_iloc (lpar_data st) (cpu_usage_col_index (os_type st)) = Raise e ->
  exists out e', summarise file_path st = (out, Raise e').
Proof.
  intros Hne Hcpu. rewrite (summarise_lpar _ _ Hne), Hcpu.
  destruct (metrics_func_total (os_type st) (lpar_data st))
    as (out1 & metrics & -> & _).
  rewrite bind_ok.
  destruct (run_queue (proc_data st)); cbn; eauto.
Qed.

(** A result tuple read backwards. *)
Lemma summarise_some_inv (file_path : string) (st : scan_state)
  (out : list message) (row : list value) :
  summarise file_path st = (out, Ok (Some row)) ->
  exists rq cpu_usage metrics memory_metrics,
    lpar_data st <> [] /\
    run_queue (proc_data st) = Ok rq /\
    float_iloc (lpar_data st) (cpu_usage_col_index (os_type st)) = Ok cpu_usage /\
    snd (metrics_func (os_type st) (lpar_data st)) = Ok metrics /\
    snd (calculate_memory_metrics (mem_data st) (os_type st)) = Ok memory_metrics /\
    length metrics = 12%nat /\ length memory_metrics = 5%nat /\
    row = identity_cells (system_info st) ++ metrics
          ++ [VFloat (quantile q95 cpu_usage); VFloat rq] ++ memory_metrics.
Proof.
  intros H.
  assert (Hne : lpar_data st <> []).
  { intros E. rewrite (summarise_no_lpar _ _ E) in H. discriminate. }
  destruct (run_queue (proc_data st)) as [rq|e] eqn:Hrq.
  2:{ destruct (summarise_rq_raises file_path st e Hne Hrq) as [o Ho].
      rewrite Ho in H. discriminate. }
  destruct (float_iloc (lpar_data st) (cpu_usage_col_index (os_type st)))
    as [cpu|e] eqn:Hcpu.
  2:{ destruct (summarise_cpu_raises file_path st e Hne Hcpu) as (o & e' & Ho).
      rewrite Ho in H. discriminate. }
  destruct (summarise_some file_path st rq cpu Hne Hrq Hcpu)
    as (o & metrics & mem & Hs & Hm & Hmem & Hl1 & Hl2).
  rewrite Hs in H. injection H as _ <-.
  exists rq, cpu, metrics, mem. auto 10.
Qed.

Lemma process_lines_eq (file_path : string) (lines : list string) :
  process_lines file_path lines =
  bind (scan lines initial_state) (summarise file_path).
Proof. reflexivity. Qed.

(** [process_nmon_file] on a readable file. *)
Lemma process_nmon_file_read (fs : string -> option (list string))
  (file_path : string) (lines : list string) :
  fs file_path = Some lines ->
  process_nmon_file fs file_path =
  try_except (process_lines file_path lines) (on_error file_path).
Proof.
  intros H. unfold process_nmon_file, readlines. rewrite H.
  by rewrite bind_lift_ok.
Qed.

(** [process_nmon_file] never raises. *)
Lemma process_nmon_file_total (fs : string -> option (list string))
  (file_path : string) :
  exists out r, process_nmon_file fs file_path = (out, Ok r).
Proof.
  unfold process_nmon_file, try_except.
  destruct (bind _ _) as [out [r|e]]; cbn; eauto.
Qed.

End PipelineFacts.

(* ===================================================================== *)
(** ** OS flavor (C1) *)
(* ===================================================================== *)

Lemma lpar_records_app (l1 l2 : list string) :
  lpar_records (l1 ++ l2) = lpar_records l1 ++ lpar_records l2.
Proof.
  unfold lpar_records. induction l1 as [|x l1 IH]; [reflexivity|].
  cbn. rewrite IH. by destruct (record_of "LPAR,T" 14 x).
Qed.

Lemma lpar_records_signature (sig : string) (rest : list string) :
  is_aix_signature sig = true -> lpar_records (sig :: rest) = lpar_records rest.
Proof.
  intros H. unfold lpar_records. cbn.
  by rewrite (record_of_excl "A" "L" "AA,AIX" "PAR,T" sig 14 ltac:(discriminate) H).
Qed.

Lemma flavor_signature (before after : list string) (sig : string) :
  is_aix_signature sig = true -> flavor (before ++ sig :: after) = AIX.
Proof.
  intros H. unfold flavor. rewrite existsb_app. cbn. rewrite H.
  by rewrite orb_true_r.
Qed.

(** C1: the flavor of a file is Linux unless some line starts with
    [AAA,AIX], wherever that line stands; every retained LPAR record of
    the file, those before the signature included, is then reduced by
    the AIX reducer, the AIX percentile column (2) and the AIX memory
    offsets. *)
Theorem C1_aix_signature_governs_whole_file
  (file_path : string) (lines : list string)
  (out : list message) (st : scan_state) :
  scan lines initial_state = (out, Ok st) ->
  os_type st = flavor lines /\
  lpar_data st = lpar_records lines /\
  (existsb is_aix_signature lines = false -> os_type st = Linux) /\
  (forall (before after : list string) (sig : string),
      lines = before ++ sig :: after ->
      is_aix_signature sig = true ->
      os_type st = AIX /\
      lpar_data st = lpar_records before ++ lpar_records after /\
      (lpar_data st <> [] ->
       process_lines file_path lines =
       bind (out, Ok tt) (fun _ =>
       bind (calculate_aix_metrics (lpar_records before ++ lpar_records after))
         (fun metrics =>
       bind (lift (run_queue (proc_data st))) (fun rq =>
       bind (lift (float_iloc (lpar_records before ++ lpar_records after) 2))
         (fun cpu_usage =>
       bind (calculate_memory_metrics (mem_data st) AIX) (fun memory_metrics =>
       ret (Some (identity_cells (system_info st) ++ metrics
                  ++ [VFloat (quantile q95 cpu_usage); VFloat rq]
                  ++ memory_metrics))))))))).
Proof.
  intros Hscan.
  destruct (scan_ok lines _ _ _ Hscan) as (Hos & Hl & _ & _).
  cbn in Hos, Hl. fold (flavor lines) in Hos.
  split; [exact Hos|]. split; [exact Hl|]. split.
  { intros Hno. rewrite Hos. unfold flavor. by rewrite Hno. }
  intros before after sig -> Hsig.
  assert (Hrec : lpar_data st = lpar_records before ++ lpar_records after).
  { by rewrite Hl, lpar_records_app, (lpar_records_signature _ _ Hsig). }
  assert (Hflavor : os_type st = AIX).
  { by rewrite Hos, (flavor_signature _ _ _ Hsig). }
  split; [exact Hflavor|]. split; [exact Hrec|].
  intros Hne. rewrite process_lines_eq, Hscan.
  rewrite !bind_ok. cbn [fst snd].
  rewrite (summarise_lpar _ _ Hne), Hflavor, Hrec. reflexivity.
Qed.

Lemma C1_witness :
  exists out st,
    scan Samples.late_signature initial_state = (out, Ok st) /\
    os_type st = AIX /\
    lpar_data st =
      lpar_records [Samples.lpar_line "10"] ++ lpar_records [Samples.lpar_line "20"].
Proof.
  eexists _, _. split; [vm_compute; reflexivity|].
  edestruct (C1_aix_signature_governs_whole_file "late.nmon" Samples.late_signature)
    as (_ & _ & _ & H); [vm_compute; reflexivity|].
  destruct (H [Samples.lpar_line "10"] [Samples.lpar_line "20"]
              Samples.aix_signature eq_refl eq_refl) as (H1 & H2 & _).
  split; [exact H1|exact H2].
Defined.

(* ===================================================================== *)
(** ** The metric reducers never fail (C6, C10) *)
(* ===================================================================== *)

Lemma aix_empty : aix_metrics_body [] = Raise (KeyError 2).
Proof. reflexivity. Qed.

Lemma linux_empty : linux_metrics_body [] = Raise (KeyError 2).
Proof. reflexivity. Qed.

Lemma aix_conversion_failure (data : DataFrame) (k : nat) :
  In k aix_columns -> non_numeric_in k data ->
  exists e, aix_metrics_body data = Raise e.
Proof.
  intros Hk Hbad.
  apply (body_raises_of_column _ aix_columns data k); auto.
  - intros vs Hvs. by destruct (aix_metrics_body_ok _ _ Hvs) as (_ & _ & ?).
  - by apply float_col_raises.
Qed.

Lemma linux_conversion_failure (data : DataFrame) (k : nat) :
  In k linux_columns -> non_numeric_in k data ->
  exists e, linux_metrics_body data = Raise e.
Proof.
  intros Hk Hbad.
  apply (body_raises_of_column _ linux_columns data k); auto.
  - intros vs Hvs. by destruct (linux_metrics_body_ok _ _ Hvs) as (_ & _ & ?).
  - by apply float_col_raises.
Qed.

(** C6: on every collection of LPAR records, the empty one and
    malformed ones included, the AIX reducer and the Linux reducer
    return (they never raise) a tuple of twelve numbers; when the [try]
    block raises, on the empty collection and on a collection with a
    string that is not a number in a column the reducer reads, the tuple
    is twelve zeros and the exception ends as a printed message. *)
Theorem C6_metric_reducers_return_twelve_numbers (data : DataFrame) :
  (exists out vs,
      calculate_aix_metrics data = (out, Ok vs) /\
      length vs = 12%nat /\ forallb is_numeric vs = true /\
      (forall e, aix_metrics_body data = Raise e ->
                 out = [ErrAixMetrics e] /\ vs = zeros 12) /\
      (data = [] -> vs = zeros 12) /\
      (forall k, In k aix_columns -> non_numeric_in k data -> vs = zeros 12))
  /\
  (exists out vs,
      calculate_linux_metrics data = (out, Ok vs) /\
      length vs = 12%nat /\ forallb is_numeric vs = true /\
      (forall e, linux_metrics_body data = Raise e ->
                 out = [ErrLinuxMetrics e] /\ vs = zeros 12) /\
      (data = [] -> vs = zeros 12) /\
      (forall k, In k linux_columns -> non_numeric_in k data -> vs = zeros 12)).
Proof.
  split.
  - rewrite calculate_aix_metrics_eq.
    destruct (aix_metrics_body data) as [vs|e] eqn:E.
    + destruct (aix_metrics_body_ok _ _ E) as (Hlen & Hnum & _).
      exists [], vs. repeat split; try done.
      * intros ->. rewrite aix_empty in E. discriminate.
      * intros k Hk Hbad.
        destruct (aix_conversion_failure data k Hk Hbad) as [e He].
        rewrite He in E. discriminate.
    + exists [ErrAixMetrics e], (zeros 12). repeat split; try done; congruence.
  - rewrite calculate_linux_metrics_eq.
    destruct (linux_metrics_body data) as [vs|e] eqn:E.
    + destruct (linux_metrics_body_ok _ _ E) as (Hlen & Hnum & _).
      exists [], vs. repeat split; try done.
      * intros ->. rewrite linux_empty in E. discriminate.
      * intros k Hk Hbad.
        destruct (linux_conversion_failure data k Hk Hbad) as [e He].
        rewrite He in E. discriminate.
    + exists [ErrLinuxMetrics e], (zeros 12). repeat split; try done; congruence.
Qed.

Lemma linux_needs_22_columns (data : DataFrame) :
  Forall (fun row => (length row < 22)%nat) data ->
  exists e, linux_metrics_body data = Raise e.
Proof.
  intros Hshort.
  apply (body_raises_of_column _ linux_columns data 21).
  - intros vs Hvs. by destruct (linux_metrics_body_ok _ _ Hvs) as (_ & _ & ?).
  - cbn. tauto.
  - exists (KeyError 21). apply float_col_missing.
    pose proof (ncols_lt data 22 ltac:(lia) Hshort). lia.
Qed.

Lemma Forall_cell_converts (data : DataFrame) (k : nat) (ks : list nat) :
  In k ks ->
  Forall (fun row => Forall (fun c => cell_converts c row = true) ks) data ->
  Forall (fun row => cell_converts k row = true) data.
Proof.
  intros Hk. apply List.Forall_impl. intros row Hrow.
  exact (proj1 (List.Forall_forall _ _) Hrow k Hk).
Qed.

(** C10: a Linux collection in which no LPAR record has 22 fields makes
    the Linux reducer fail on its column access and return twelve
    zeros, also when columns 2 to 13 of every record are numbers (the
    failure is then the missing column 21); such a file's result row
    carries the twelve zeros. *)
Theorem C10_linux_reducer_needs_22_fields (data : DataFrame) :
  Forall (fun row => (length row < 22)%nat) data ->
  (exists e, calculate_linux_metrics data = ([ErrLinuxMetrics e], Ok (zeros 12))) /\
  (data <> [] ->
   Forall (fun row => Forall (fun k => cell_converts k row = true) (seq 2 12)) data ->
   calculate_linux_metrics data = ([ErrLinuxMetrics (KeyError 21)], Ok (zeros 12))) /\
  (forall (file_path : string) (lines : list string) (out : list message)
          (row : list value),
      lpar_records lines = data ->
      existsb is_aix_signature lines = false ->
      process_lines file_path lines = (out, Ok (Some row)) ->
      firstn 12 (skipn 5 row) = zeros 12).
Proof.
  intros Hshort.
  destruct (linux_needs_22_columns data Hshort) as [e He].
  split; [|split].
  - exists e. by rewrite calculate_linux_metrics_eq, He.
  - intros Hne Hnum. rewrite calculate_linux_metrics_eq.
    assert (Hc : forall k, In k (seq 2 12) ->
                           float_col data k = Ok (map (cell_float k) data)).
    { intros k Hk. apply float_col_column; [exact Hne|].
      by apply (Forall_cell_converts data k (seq 2 12)). }
    unfold linux_metrics_body.
    rewrite (Hc 2%nat), (Hc 13%nat), (Hc 10%nat), (Hc 8%nat) by (cbn; tauto).
    cbn [rbind].
    rewrite (float_col_missing 21 data); [reflexivity|].
    pose proof (ncols_lt data 22 ltac:(lia) Hshort). lia.
  - intros file_path lines out row Hrec Hno Hrow.
    rewrite process_lines_eq in Hrow.
    destruct (scan lines initial_state) as [out1 [st|e1]] eqn:Hscan;
      [|discriminate].
    rewrite bind_ok in Hrow.
    destruct (summarise file_path st) as [out2 r] eqn:Hsum.
    cbn [fst snd] in Hrow. injection Hrow as _ ->.
    destruct (scan_ok lines _ _ _ Hscan) as (Hos & Hl & _ & _).
    cbn in Hos, Hl. rewrite Hno in Hos.
    destruct (summarise_some_inv _ _ _ _ Hsum)
      as (rq & cpu & metrics & mem & _ & _ & _ & Hm & _ & Hlen & _ & ->).
    rewrite Hos, Hl, Hrec in Hm. cbn [metrics_func] in Hm.
    rewrite calculate_linux_metrics_eq, He in Hm. injection Hm as <-.
    reflexivity.
Qed.

Lemma C10_witness :
  calculate_linux_metrics (lpar_records [Samples.lpar_line "10"]) =
  ([ErrLinuxMetrics (KeyError 21)], Ok (zeros 12)) /\
  exists out row,
    process_lines "f.nmon" [Samples.lpar_line "10"] = (out, Ok (Some row)) /\
    firstn 12 (skipn 5 row) = zeros 12.
Proof.
  assert (Hshort : List.Forall (fun row => (length row < 22)%nat)
                     (lpar_records [Samples.lpar_line "10"])) by check_all.
  destruct (C10_linux_reducer_needs_22_fields _ Hshort) as (_ & Hkey & Hfile).
  split.
  - apply Hkey; [discriminate|check_all].
  - eexists _, _. split; [vm_compute; reflexivity|].
    eapply (Hfile "f.nmon" [Samples.lpar_line "10"]);
      [reflexivity|reflexivity|vm_compute; reflexivity].
Defined.

(* ===================================================================== *)
(** ** Result rows and the table of [main] (C5, C8, C9) *)
(* ===================================================================== *)

Lemma process_nmon_file_some_inv (fs : string -> option (list string))
  (file_path : string) (out : list message) (row : list value) :
  process_nmon_file fs file_path = (out, Ok (Some row)) ->
  exists lines out1 st out2,
    fs file_path = Some lines /\
    scan lines initial_state = (out1, Ok st) /\
    summarise file_path st = (out2, Ok (Some row)) /\
    out = out1 ++ out2.
Proof.
  unfold process_nmon_file, readlines.
  destruct (fs file_path) as [lines|]; [|discriminate].
  rewrite bind_lift_ok, process_lines_eq.
  destruct (scan lines initial_state) as [out1 [st|e]] eqn:Hscan;
    [|discriminate].
  rewrite bind_ok. destruct (summarise file_path st) as [out2 [r|e]] eqn:E;
    cbn; [|discriminate].
  intros [= <- ->]. by exists lines, out1, st, out2.
Qed.

Lemma result_row_length (info : gmap string string)
  (metrics memory_metrics : list value) (c r : value) :
  length metrics = 12%nat -> length memory_metrics = 5%nat ->
  length (identity_cells info ++ metrics ++ [c; r] ++ memory_metrics) = 24%nat.
Proof. intros H1 H2. rewrite !length_app, H1, H2. reflexivity. Qed.

Lemma result_row_cells (info : gmap string string)
  (metrics memory_metrics : list value) (c r : value) :
  length metrics = 12%nat ->
  let row := identity_cells info ++ metrics ++ [c; r] ++ memory_metrics in
  nth_error row 17 = Some c /\ nth_error row 18 = Some r /\
  firstn 12 (skipn 5 row) = metrics /\ skipn 19 row = memory_metrics.
Proof.
  intros H. do 12 (destruct metrics as [|? metrics]; [discriminate|]).
  destruct metrics; [|discriminate]. cbn. auto.
Qed.

Lemma process_nmon_file_row_length (fs : string -> option (list string))
  (file_path : string) (out : list message) (row : list value) :
  process_nmon_file fs file_path = (out, Ok (Some row)) -> length row = 24%nat.
Proof.
  intros H. destruct (process_nmon_file_some_inv _ _ _ _ H)
    as (lines & out1 & st & out2 & _ & _ & Hsum & _).
  destruct (summarise_some_inv _ _ _ _ Hsum)
    as (rq & cpu & metrics & mem & _ & _ & _ & _ & _ & H1 & H2 & ->).
  by apply result_row_length.
Qed.

(** The rows [main] collects: each one is a file name of the listing
    followed by the 24 cells [process_nmon_file] returned for it. *)
Lemma collect_rows (fs : string -> option (list string)) (names : list string) :
  forall acc : list (list value),
  exists out rows,
    collect fs names acc = (out, Ok (acc ++ rows)) /\
    Forall (fun row =>
              exists filename r,
                row = VStr filename :: r /\ In filename names /\
                length r = 24%nat /\
                snd (process_nmon_file fs (path_join folder_path filename))
                = Ok (Some r)) rows.
Proof.
  induction names as [|filename rest IH]; intros acc; cbn [collect].
  - exists [], []. by rewrite app_nil_r.
  - assert (Hweak : forall rows,
      Forall (fun row => exists filename0 r,
                row = VStr filename0 :: r /\ In filename0 rest /\
                length r = 24%nat /\
                snd (process_nmon_file fs (path_join folder_path filename0))
                = Ok (Some r)) rows ->
      Forall (fun row => exists filename0 r,
                row = VStr filename0 :: r /\ In filename0 (filename :: rest) /\
                length r = 24%nat /\
                snd (process_nmon_file fs (path_join folder_path filename0))
                = Ok (Some r)) rows).
    { apply List.Forall_impl. intros row (f & r & ? & ? & ? & ?).
      exists f, r. cbn. auto. }
    destruct (endswith filename ".nmon").
    2:{ destruct (IH acc) as (out & rows & -> & Hrows). eauto. }
    destruct (process_nmon_file fs (path_join folder_path filename))
      as [out1 res] eqn:Hp.
    destruct (process_nmon_file_total fs (path_join folder_path filename))
      as (out1' & r & Hp'). rewrite Hp' in Hp. injection Hp as -> <-.
    rewrite bind_ok.
    destruct r as [[|c row]|].
    + apply process_nmon_file_row_length in Hp'. discriminate.
    + destruct (IH (acc ++ [VStr filename :: c :: row]))
        as (out & rows & -> & Hrows).
      exists (out1 ++ out), ((VStr filename :: c :: row) :: rows).
      cbn [fst snd]. rewrite <- app_assoc. split; [reflexivity|].
      constructor; [|by apply Hweak].
      exists filename, (c :: row). rewrite Hp'. cbn [snd In].
      repeat split; auto. by apply (process_nmon_file_row_length _ _ _ _ Hp').
    + destruct (IH acc) as (out & rows & -> & Hrows).
      exists (out1 ++ out), rows. cbn [fst snd]. auto.
Qed.


Lemma main_table (listdir : string -> result (list string))
  (fs : string -> option (list string)) (names : list string) :
  listdir folder_path = Ok names ->
  exists out rows,
    (forall to_excel : string -> table -> result unit,
        main listdir fs to_excel = (out, to_excel output_file (columns, rows))) /\
    Forall (fun row =>
              length row = 25%nat /\
              exists filename r,
                row = VStr filename :: r /\ In filename names /\
                snd (process_nmon_file fs (path_join folder_path filename))
                = Ok (Some r)) rows.
Proof.
  intros Hls. destruct (collect_rows fs names []) as (out & rows & Hc & Hrows).
  cbn [app] in Hc.
  assert (Hlen : forallb (fun row => (length row =? length columns)%nat) rows = true).
  { apply forallb_forall. intros row Hin.
    destruct (proj1 (List.Forall_forall _ _) Hrows row Hin)
      as (f & r & -> & _ & Hr & _).
    cbn. by rewrite Hr. }
  exists out, rows. split.
  - intros to_excel. unfold main. rewrite Hls, bind_lift_ok, Hc, bind_ok.
    unfold with_columns. rewrite Hlen, bind_lift_ok. cbn [lift fst snd].
    by rewrite app_nil_r.
  - revert Hrows. apply List.Forall_impl.
    intros row (f & r & -> & Hin & Hr & Hp). split; [cbn; by rewrite Hr|eauto].
Qed.

(** C5, as the code has it: every row of the table [main] hands to
    [to_excel] has 25 cells under 25 column names, which are the names
    the specification lists in the same order except at position 21 (the
    22nd), where the code has [Mim MEM Used] and the specification
    [Min MEM Used]. *)
Theorem C5_columns_differ_at_min_mem_used :
  length columns = 25%nat /\
  (forall listdir fs names,
      listdir folder_path = Ok names ->
      exists out rows,
        (forall to_excel : string -> table -> result unit,
            main listdir fs to_excel
            = (out, to_excel output_file (columns, rows))) /\
        Forall (fun row => length row = 25%nat) rows) /\
  columns = <[21%nat := "Mim MEM Used"]> spec_columns /\
  nth_error spec_columns 21 = Some "Min MEM Used" /\
  nth_error columns 21 = Some "Mim MEM Used" /\
  columns <> spec_columns.
Proof.
  split; [reflexivity|]. split.
  { intros listdir fs names Hls.
    destruct (main_table listdir fs names Hls) as (out & rows & H & Hrows).
    exists out, rows. split; [exact H|].
    revert Hrows. apply List.Forall_impl. tauto. }
  repeat split; discriminate.
Qed.

(** C9: when a file retains no PROC record, the run-queue percentile is
    NaN and the cell at position 18 of the result tuple it produces (19
    of the table row) holds NaN.  When it retains PROC records the cell
    holds the percentile of their field 2, which for a run queue
    measured as zero in every sample is the float zero.  NaN answers
    [isnan] and zero does not, and NaN is neither the integer zero nor
    the float zero: the absent measurement is told from the true
    zero. *)
Theorem C9_run_queue_nan_without_proc
  (file_path : string) (lines : list string) (out : list message)
  (st : scan_state) (cpu_usage : Series) :
  scan lines initial_state = (out, Ok st) ->
  lpar_data st <> [] ->
  float_iloc (lpar_data st) (cpu_usage_col_index (os_type st)) = Ok cpu_usage ->
  (proc_records lines = [] ->
   run_queue (proc_data st) = Ok NaN /\
   (exists out' row,
       process_lines file_path lines = (out', Ok (Some row)) /\
       nth_error row 18 = Some (VFloat NaN)) /\
   (forall out' row,
       process_lines file_path lines = (out', Ok (Some row)) ->
       nth_error row 18 = Some (VFloat NaN))) /\
  (forall samples : Series,
      proc_records lines <> [] ->
      float_iloc (proc_records lines) 2 = Ok samples ->
      run_queue (proc_data st) = Ok (quantile q95 samples) /\
      (exists out' row,
          process_lines file_path lines = (out', Ok (Some row)) /\
          nth_error row 18 = Some (VFloat (quantile q95 samples))) /\
      (List.Forall (fun x => x = zero) samples ->
       (length samples <= checked_samples)%nat ->
       quantile q95 samples = zero)) /\
  isnan NaN = true /\ isnan zero = false /\
  VFloat NaN <> VInt 0 /\ VFloat NaN <> VFloat zero.
Proof.
  intros Hscan Hne Hcpu.
  destruct (scan_ok lines _ _ _ Hscan) as (_ & _ & Hp & _).
  cbn in Hp.
  assert (Hrow : forall rq, run_queue (proc_data st) = Ok rq ->
            exists out2 metrics mem,
              process_lines file_path lines =
              (out ++ out2,
               Ok (Some (identity_cells (system_info st) ++ metrics
                         ++ [VFloat (quantile q95 cpu_usage); VFloat rq]
                         ++ mem))) /\
              length metrics = 12%nat).
  { intros rq Hrq.
    destruct (summarise_some file_path st rq cpu_usage Hne Hrq Hcpu)
      as (out2 & metrics & mem & Hsum & _ & _ & Hlen & _).
    exists out2, metrics, mem.
    by rewrite process_lines_eq, Hscan, bind_ok, Hsum. }
  split; [|split].
  - intros Hnone. rewrite Hnone in Hp.
    assert (Hrq : run_queue (proc_data st) = Ok NaN) by (by rewrite Hp).
    destruct (Hrow NaN Hrq) as (out2 & metrics & mem & Hr & Hlen).
    split; [exact Hrq|]. split.
    + eexists _, _. split; [exact Hr|].
      by apply (result_row_cells (system_info st) metrics mem _ _ Hlen).
    + intros out' row Hrow'. rewrite Hr in Hrow'. injection Hrow' as _ <-.
      by apply (result_row_cells (system_info st) metrics mem _ _ Hlen).
  - intros samples Hsome Hcol.
    assert (Hrq : run_queue (proc_data st) = Ok (quantile q95 samples)).
    { rewrite Hp. unfold run_queue.
      destruct (proc_records lines); [done|]. by rewrite Hcol. }
    destruct (Hrow _ Hrq) as (out2 & metrics & mem & Hr & Hlen).
    split; [exact Hrq|]. split.
    + eexists _, _. split; [exact Hr|].
      by apply (result_row_cells (system_info st) metrics mem _ _ Hlen).
    + intros Hzero Hmany. rewrite (Forall_eq_repeat _ _ Hzero).
      apply constant_zero. split; [|exact Hmany].
      rewrite (float_iloc_length _ _ _ Hcol).
      destruct (proc_records lines); [done|cbn; lia].
  - split; [reflexivity|]. split; [reflexivity|].
    split; [discriminate|]. intros H. apply NaN_not_zero. congruence.
Qed.

Lemma C9_witness :
  (exists out row,
      process_lines "f.nmon" [Samples.lpar_line "10"] = (out, Ok (Some row)) /\
      nth_error row 18 = Some (VFloat NaN)) /\
  (exists out row,
      process_lines "f.nmon" Samples.zero_run_queue = (out, Ok (Some row)) /\
      nth_error row 18 = Some (VFloat zero)).
Proof.
  split.
  - refine (proj1 (proj2 (proj1 (C9_run_queue_nan_without_proc "f.nmon"
                                   [Samples.lpar_line "10"] _ _ _ _ _ _) _))).
    + vm_compute. reflexivity.
    + discriminate.
    + vm_compute. reflexivity.
    + reflexivity.
  - edestruct (C9_run_queue_nan_without_proc "f.nmon" Samples.zero_run_queue)
      as (_ & H & _).
    + vm_compute. reflexivity.
    + discriminate.
    + vm_compute. reflexivity.
    + destruct (H [zero; zero; zero]) as (_ & Hrow & Hzero).
      * discriminate.
      * vm_compute. reflexivity.
      * rewrite Hzero in Hrow; [exact Hrow|repeat constructor|].
        unfold checked_samples. cbn [length]. lia.
Defined.

(* ===================================================================== *)
(** ** Where a conversion failure is caught (C2) *)
(* ===================================================================== *)

Lemma metrics_func_eq (o : os) (data : DataFrame) :
  metrics_func o data =
  match metrics_body o data with
  | Ok vs => ([], Ok vs)
  | Raise e =>
      ([match o with AIX => ErrAixMetrics e | Linux => ErrLinuxMetrics e end],
       Ok (zeros 12))
  end.
Proof.
  destruct o; cbn [metrics_func metrics_body].
  - apply calculate_aix_metrics_eq.
  - apply calculate_linux_metrics_eq.
Qed.

Lemma run_queue_converts (proc_data : list (list string)) :
  Forall (fun row => cell_converts 2 row = true) proc_data ->
  exists rq, run_queue proc_data = Ok rq.
Proof.
  intros H. destruct proc_data as [|row rest]; [by exists NaN|].
  unfold run_queue. rewrite (float_iloc_column 2 (row :: rest)); [|done|done].
  cbn [rbind]. eauto.
Qed.

Lemma run_queue_raises (proc_data : list (list string)) :
  non_numeric_in 2 proc_data -> exists e, run_queue proc_data = Raise e.
Proof.
  intros Hbad. destruct (float_iloc_raises 2 proc_data Hbad) as [e He].
  destruct proc_data as [|row rest].
  - destruct Hbad as (? & ? & [] & _).
  - unfold run_queue. rewrite He. eauto.
Qed.

Lemma process_nmon_file_raise (fs : string -> option (list string))
  (file_path : string) (lines : list string) (out : list message) (e : exn) :
  fs file_path = Some lines ->
  process_lines file_path lines = (out, Raise e) ->
  process_nmon_file fs file_path = (out ++ [ErrProcessing file_path e], Ok None).
Proof.
  intros Hfs H. by rewrite (process_nmon_file_read _ _ _ Hfs), H.
Qed.

Lemma process_nmon_file_ok (fs : string -> option (list string))
  (file_path : string) (lines : list string) (out : list message)
  (r : option (list value)) :
  fs file_path = Some lines ->
  process_lines file_path lines = (out, Ok r) ->
  process_nmon_file fs file_path = (out, Ok r).
Proof.
  intros Hfs H. by rewrite (process_nmon_file_read _ _ _ Hfs), H.
Qed.

(** C2, amended: a conversion failure inside the AIX, Linux or memory
    reducer is caught there, the reducer returns zeros and the file
    still gets its result tuple, provided the run-queue column (PROC
    field 2) and the CPU-percentile column (LPAR field 2 on AIX, 10 on
    Linux) hold numbers; a string that is not a number in one of these
    two columns raises outside every reducer, is caught at the end of
    [process_nmon_file], and the file gets no result tuple. *)
Theorem C2_conversion_failure_caught_by_place
  (fs : string -> option (list string)) (file_path : string)
  (lines : list string) (out : list message) (st : scan_state) :
  fs file_path = Some lines ->
  scan lines initial_state = (out, Ok st) ->
  lpar_data st <> [] ->
  (Forall (fun row => cell_converts 2 row = true) (proc_data st) ->
   Forall (fun row => cell_converts (cpu_usage_col_index (os_type st)) row = true)
     (lpar_data st) ->
   exists out' row,
     process_nmon_file fs file_path = (out', Ok (Some row)) /\
     length row = 24%nat /\
     (forall e, metrics_body (os_type st) (lpar_data st) = Raise e ->
                firstn 12 (skipn 5 row) = zeros 12) /\
     (forall e, memory_metrics_body (mem_data st) (os_type st) = Raise e ->
                skipn 19 row = zeros 5)) /\
  (non_numeric_in 2 (proc_data st) \/
   non_numeric_in (cpu_usage_col_index (os_type st)) (lpar_data st) ->
   exists out' e,
     process_nmon_file fs file_path =
     (out' ++ [ErrProcessing file_path e], Ok None)).
Proof.
  intros Hfs Hscan Hne. split.
  - intros Hproc Hcpu.
    destruct (run_queue_converts _ Hproc) as [rq Hrq].
    pose proof (float_iloc_column _ _ Hne Hcpu) as Hc.
    destruct (summarise_some file_path st rq _ Hne Hrq Hc)
      as (out2 & metrics & mem & Hsum & Hm & Hmem & Hl1 & Hl2).
    eexists (out ++ out2), _. split; [|split; [|split]].
    + apply (process_nmon_file_ok _ _ lines); [exact Hfs|].
      by rewrite process_lines_eq, Hscan, bind_ok, Hsum.
    + by apply result_row_length.
    + intros e He. rewrite metrics_func_eq, He in Hm. injection Hm as <-.
      by apply (result_row_cells (system_info st) (zeros 12) mem).
    + intros e He. rewrite calculate_memory_metrics_eq, He in Hmem.
      injection Hmem as <-.
      by apply (result_row_cells (system_info st) metrics (zeros 5)).
  - intros Hbad.
    assert (Hraise : exists out2 e, summarise file_path st = (out2, Raise e)).
    { destruct Hbad as [Hbad|Hbad].
      - destruct (run_queue_raises _ Hbad) as [e He].
        destruct (summarise_rq_raises file_path st e Hne He) as [out2 H]. eauto.
      - destruct (float_iloc_raises _ _ Hbad) as [e He].
        apply (summarise_cpu_raises file_path st e Hne He). }
    destruct Hraise as (out2 & e & Hsum).
    exists (out ++ out2), e.
    apply (process_nmon_file_raise _ _ lines); [exact Hfs|].
    by rewrite process_lines_eq, Hscan, bind_ok, Hsum.
Qed.

Lemma C2_witness :
  exists out' row,
    process_nmon_file (Samples.one_file "f.nmon" Samples.bad_reducer_columns)
      (path_join folder_path "f.nmon") = (out', Ok (Some row)) /\
    length row = 24%nat /\
    firstn 12 (skipn 5 row) = zeros 12 /\
    skipn 19 row = zeros 5.
Proof.
  edestruct (C2_conversion_failure_caught_by_place
               (Samples.one_file "f.nmon" Samples.bad_reducer_columns)
               (path_join folder_path "f.nmon") Samples.bad_reducer_columns)
    as [H _].
  - reflexivity.
  - vm_compute. reflexivity.
  - discriminate.
  - destruct H as (out' & row & Hp & Hlen & Hm & Hmem).
    + constructor.
    + check_all.
    + exists out', row. split; [exact Hp|]. split; [exact Hlen|]. split.
      * apply (Hm (ValueError "x")). vm_compute. reflexivity.
      * apply (Hmem (ValueError "y")). vm_compute. reflexivity.
Defined.

(** The claim as stated fails: a run-queue value, or a CPU value, that
    is not a number leaves the file without a result tuple; so does a
    run-queue value with a separator character that [float] does not
    trim. *)
Lemma C2_counterexample :
  process_nmon_file (Samples.one_file "f.nmon" Samples.bad_run_queue)
    (path_join folder_path "f.nmon")
  = ([ErrLinuxMetrics (KeyError 21);
      ErrProcessing (path_join folder_path "f.nmon") (ValueError "abc")],
     Ok None) /\
  process_nmon_file (Samples.one_file "f.nmon" Samples.bad_cpu_aix)
    (path_join folder_path "f.nmon")
  = ([ErrAixMetrics (ValueError "n/a");
      ErrProcessing (path_join folder_path "f.nmon") (ValueError "n/a")],
     Ok None) /\
  process_nmon_file (Samples.one_file "f.nmon" Samples.bad_cpu_linux)
    (path_join folder_path "f.nmon")
  = ([ErrLinuxMetrics (ValueError "n/a");
      ErrProcessing (path_join folder_path "f.nmon") (ValueError "n/a")],
     Ok None) /\
  process_nmon_file (Samples.one_file "f.nmon" Samples.control_run_queue)
    (path_join folder_path "f.nmon")
  = ([ErrProcessing (path_join folder_path "f.nmon")
        (ValueError (Samples.fs_char +:+ "5"))],
     Ok None).
Proof. repeat split; vm_compute; reflexivity. Qed.

(* ===================================================================== *)
(** ** The Header Extractor (C4) *)
(* ===================================================================== *)

Lemma split_not_nil (sep : ascii) (s : string) : split sep s <> [].
Proof.
  destruct s as [|c s]; cbn; [discriminate|].
  destruct (Ascii.eqb c sep); [discriminate|].
  destruct (split sep s); discriminate.
Qed.

Lemma last_item_last (parts : list string) :
  parts <> [] -> last_item parts = Ok (List.last parts EmptyString).
Proof.
  intros Hne. unfold last_item.
  destruct (exists_last Hne) as (l & x & ->).
  by rewrite rev_app_distr, List.last_last.
Qed.

Lemma after_last_colon_tail (line : string) :
  after_last_colon line = Ok (colon_tail line).
Proof.
  unfold after_last_colon, colon_tail.
  by rewrite (last_item_last _ (split_not_nil colon line)).
Qed.

Lemma item_short (parts : list string) (i : nat) :
  (length parts <? S i)%nat = true -> item parts i = Raise IndexError.
Proof.
  intros H. apply Nat.ltb_lt in H. unfold item.
  destruct (nth_error parts i) eqn:E; [|reflexivity].
  assert (i < length parts)%nat by (apply nth_error_Some; congruence). lia.
Qed.

Lemma item_long (parts : list string) (i : nat) :
  (length parts <? S i)%nat = false -> exists v, item parts i = Ok v.
Proof.
  intros H. apply Nat.ltb_ge in H. unfold item.
  destruct (nth_error parts i) eqn:E; [eauto|].
  apply nth_error_None in E. lia.
Qed.

(** The Header Extractor raises exactly on the malformed header lines,
    whatever the dictionary holds. *)
Lemma parse_system_info_malformed (line : string) (info : gmap string string) :
  malformed_header line = true ->
  parse_system_info line info = Raise IndexError.
Proof.
  unfold malformed_header, parse_system_info.
  rewrite after_last_colon_tail. cbn [rbind].
  repeat match goal with
         | |- context [if contains ?m line then _ else _] =>
             destruct (contains m line)
         end; try discriminate; intros H; by rewrite (item_short _ _ H).
Qed.

Lemma parse_system_info_well_formed (line : string) (info : gmap string string) :
  malformed_header line = false ->
  exists info', parse_system_info line info = Ok info'.
Proof.
  unfold malformed_header, parse_system_info.
  rewrite after_last_colon_tail. cbn [rbind].
  repeat match goal with
         | |- context [if contains ?m line then _ else _] =>
             destruct (contains m line)
         end; intros H; eauto;
    destruct (item_long _ _ H) as [v ->]; cbn [rbind]; eauto.
Qed.

Lemma scan_line_header (line : string) (st : scan_state) :
  is_header_line line = true ->
  scan_line line st =
  bind (lift (parse_system_info line (system_info st)))
    (fun info => ret (set_info info st)).
Proof.
  unfold is_header_line, scan_line. intros H.
  apply negb_true_iff in H.
  repeat (apply orb_false_iff in H; destruct H as [H ?]).
  by repeat match goal with E : startswith line _ = false |- _ =>
                              rewrite E; clear E end.
Qed.

Lemma scan_line_raises (line : string) (st : scan_state)
  (out : list message) (e : exn) :
  scan_line line st = (out, Raise e) -> e = IndexError.
Proof.
  unfold scan_line.
  repeat match goal with
         | |- context [if ?b then _ else _] => destruct b
         end; try discriminate.
  destruct (parse_system_info line (system_info st)) as [info|e'] eqn:E;
    cbn; [discriminate|].
  intros [= _ <-]. by apply (parse_system_info_raises _ _ _ E).
Qed.

(** One malformed header line anywhere makes the scan raise. *)
Lemma scan_malformed_header (lines : list string) (line : string) :
  In line lines ->
  is_header_line line = true ->
  malformed_header line = true ->
  forall st, exists out, scan lines st = (out, Raise IndexError).
Proof.
  intros Hin Hh Hm. induction lines as [|l rest IH]; [destruct Hin|].
  intros st. cbn [scan].
  destruct (scan_line l st) as [out1 [st1|e]] eqn:Hl.
  - destruct Hin as [->|Hin].
    + rewrite (scan_line_header _ _ Hh) in Hl.
      rewrite (parse_system_info_malformed _ _ Hm) in Hl. discriminate.
    + destruct (IH Hin st1) as [out2 H2]. rewrite bind_ok, H2. cbn. eauto.
  - rewrite (scan_line_raises _ _ _ _ Hl). rewrite bind_raise. eauto.
Qed.

(** C4, amended: the Header Extractor raises no exception on a line
    without marker (the dictionary is returned as it was) and on a line
    whose marked field is present; on a line whose marker is present
    but whose field is not (an [lparname] line with fewer than 4
    fields, a [System Model:] line whose tail has fewer than 2 comma
    segments) it raises [IndexError], which ends the processing of the
    file: [process_nmon_file] prints the error and returns no tuple. *)
Theorem C4_malformed_header_aborts_file (line : string)
  (info : gmap string string) :
  (malformed_header line = false ->
   exists info', parse_system_info line info = Ok info') /\
  (contains "AAA,date" line = false -> contains "lparname" line = false ->
   contains "System Model:" line = false ->
   contains "Machine Serial Number:" line = false ->
   contains "Processor Type:" line = false ->
   parse_system_info line info = Ok info) /\
  (malformed_header line = true ->
   parse_system_info line info = Raise IndexError) /\
  (contains "AAA,date" line = false -> contains "lparname" line = true ->
   (length (split comma line) < 4)%nat ->
   parse_system_info line info = Raise IndexError) /\
  (contains "AAA,date" line = false -> contains "lparname" line = false ->
   contains "System Model:" line = true ->
   (length (split comma (colon_tail line)) < 2)%nat ->
   parse_system_info line info = Raise IndexError) /\
  (forall (fs : string -> option (list string)) (file_path : string)
          (lines : list string),
      fs file_path = Some lines ->
      In line lines ->
      is_header_line line = true ->
      malformed_header line = true ->
      exists out,
        process_nmon_file fs file_path =
        (out ++ [ErrProcessing file_path IndexError], Ok None)).
Proof.
  split; [apply parse_system_info_well_formed|].
  split.
  { intros H1 H2 H3 H4 H5. unfold parse_system_info.
    by rewrite H1, H2, H3, H4, H5. }
  split; [apply parse_system_info_malformed|].
  split.
  { intros H1 H2 Hlen. apply parse_system_info_malformed.
    unfold malformed_header. rewrite H1, H2. by apply Nat.ltb_lt. }
  split.
  { intros H1 H2 H3 Hlen. apply parse_system_info_malformed.
    unfold malformed_header. rewrite H1, H2, H3. by apply Nat.ltb_lt. }
  intros fs file_path lines Hfs Hin Hh Hm.
  destruct (scan_malformed_header lines line Hin Hh Hm initial_state)
    as [out Hscan].
  exists out. apply (process_nmon_file_raise _ _ lines); [exact Hfs|].
  by rewrite process_lines_eq, Hscan.
Qed.

(** The claim as stated fails: the two malformed header lines it names
    raise, and a file with one of them gets no result tuple although it
    has a well-formed LPAR record. *)
Lemma C4_counterexample :
  parse_system_info Samples.short_lparname ∅ = Raise IndexError /\
  parse_system_info Samples.short_system_model ∅ = Raise IndexError /\
  lpar_records Samples.bad_header <> [] /\
  process_nmon_file (Samples.one_file "f.nmon" Samples.bad_header)
    (path_join folder_path "f.nmon")
  = ([ErrProcessing (path_join folder_path "f.nmon") IndexError], Ok None).
Proof. repeat split; try (vm_compute; reflexivity). discriminate. Qed.

(* ===================================================================== *)
(** ** A file without LPAR record (C8) *)
(* ===================================================================== *)

(** One line prints its warning, whether or not it raises. *)
Lemma scan_line_log (line : string) (st : scan_state) :
  fst (scan_line line st) = omap scan_warning [line].
Proof.
  unfold scan_line, scan_warning. cbn [omap list_omap].
  destruct (startswith line "AAA,AIX"); [reflexivity|].
  destruct (startswith line "LPAR,T").
  { by destruct (14 <=? _)%nat. }
  destruct (startswith line "PROC,T").
  { by destruct (3 <=? _)%nat. }
  destruct (startswith line "MEM,T").
  { by destruct (8 <=? _)%nat. }
  by destruct (parse_system_info line (system_info st)).
Qed.

Lemma scan_log (lines : list string) :
  forall st,
    (is_ok (snd (scan lines st)) = true ->
     fst (scan lines st) = omap scan_warning lines) /\
    exists n, fst (scan lines st) = omap scan_warning (firstn n lines).
Proof.
  induction lines as [|line rest IH]; intros st; cbn [scan].
  - split; [reflexivity|]. by exists 0%nat.
  - pose proof (scan_line_log line st) as Hline.
    destruct (scan_line line st) as [out1 [st1|e]]; cbn [fst] in Hline.
    + rewrite bind_ok. cbn [fst snd].
      destruct (IH st1) as [Hok [n Hn]].
      rewrite (omap_cons_app _ line rest), Hline. split.
      * intros H. by rewrite (Hok H).
      * exists (S n). cbn [firstn].
        by rewrite (omap_cons_app _ line (firstn n rest)), Hn.
    + rewrite bind_raise. cbn [fst snd]. split; [discriminate|].
      exists 1%nat. rewrite Hline. by destruct rest.
Qed.

Lemma is_ok_parse_system_info (line : string) (info : gmap string string) :
  is_ok (parse_system_info line info) = negb (malformed_header line).
Proof.
  destruct (malformed_header line) eqn:E.
  - by rewrite (parse_system_info_malformed _ _ E).
  - by destruct (parse_system_info_well_formed line info E) as [info' ->].
Qed.

Lemma is_ok_scan_line (line : string) (st : scan_state) :
  is_ok (snd (scan_line line st)) =
  negb (is_header_line line && malformed_header line).
Proof.
  destruct (is_header_line line) eqn:Hh.
  - rewrite (scan_line_header _ _ Hh). cbn [andb].
    rewrite <- (is_ok_parse_system_info line (system_info st)).
    by destruct (parse_system_info line (system_info st)).
  - cbn [andb negb]. unfold is_header_line in Hh. unfold scan_line.
    destruct (startswith line "AAA,AIX"); [reflexivity|].
    destruct (startswith line "LPAR,T"); [by destruct (14 <=? _)%nat|].
    destruct (startswith line "PROC,T"); [by destruct (3 <=? _)%nat|].
    destruct (startswith line "MEM,T"); [by destruct (8 <=? _)%nat|].
    discriminate.
Qed.

(** The scan raises exactly when some header line is malformed. *)
Lemma is_ok_scan (lines : list string) :
  forall st, is_ok (snd (scan lines st)) = headers_well_formed lines.
Proof.
  unfold headers_well_formed.
  induction lines as [|line rest IH]; intros st; cbn [scan forallb];
    [reflexivity|].
  rewrite <- (is_ok_scan_line line st).
  destruct (scan_line line st) as [out1 [st1|e]]; [|reflexivity].
  rewrite bind_ok. cbn [fst snd is_ok andb]. apply IH.
Qed.

Lemma no_skip_app (l1 l2 : list message) :
  no_skip_message (l1 ++ l2) = no_skip_message l1 && no_skip_message l2.
Proof. apply forallb_app. Qed.

Lemma scan_log_no_skip (lines : list string) (st : scan_state) :
  no_skip_message (fst (scan lines st)) = true.
Proof.
  destruct (scan_log lines st) as [_ [n ->]].
  generalize (firstn n lines). intros l.
  induction l as [|line l IH]; [reflexivity|].
  rewrite (omap_cons_app _ line l), no_skip_app, IH, andb_true_r.
  cbn. unfold scan_warning.
  repeat match goal with
         | |- context [if ?b then _ else _] => destruct b
         end; reflexivity.
Qed.

Lemma scan_raises (lines : list string) :
  forall (st : scan_state) (out : list message) (e : exn),
    scan lines st = (out, Raise e) -> e = IndexError.
Proof.
  induction lines as [|line rest IH]; intros st out e; cbn [scan].
  - discriminate.
  - destruct (scan_line line st) as [out1 [st1|e1]] eqn:Hline.
    + rewrite bind_ok. destruct (scan rest st1) as [out2 r] eqn:Hrest.
      cbn [fst snd]. intros [= _ ->]. exact (IH _ _ _ Hrest).
    + rewrite bind_raise. intros [= _ <-]. exact (scan_line_raises _ _ _ _ Hline).
Qed.

Lemma no_skip_not_In (out : list message) (m : message) :
  no_skip_message out = true -> is_skip_message m = true -> ~ In m out.
Proof.
  intros Hout Hm Hin.
  pose proof (proj1 (forallb_forall _ _) Hout m Hin) as H. cbn beta in H.
  rewrite Hm in H. discriminate.
Qed.

(** C8, amended: a file that retains no LPAR record (no [LPAR,T] line
    with at least 14 fields) gets no result tuple from the pipeline and
    no row of the table [main] hands to [to_excel] carries its name.
    The failure is surfaced as the no-LPAR warning when no header line
    of the file is malformed; when one is, the scan raises before the
    check, the last message is the error of the pipeline boundary and
    the warning is not printed. *)
Theorem C8_no_lpar_record_no_row
  (fs : string -> option (list string)) (file_path : string)
  (lines : list string) :
  fs file_path = Some lines ->
  lpar_records lines = [] ->
  (exists out,
      process_nmon_file fs file_path = (out, Ok None) /\
      (headers_well_formed lines = true ->
       last out = Some (WarnNoLpar file_path)) /\
      (headers_well_formed lines = false ->
       last out = Some (ErrProcessing file_path IndexError) /\
       ~ In (WarnNoLpar file_path) out)) /\
  (forall filename listdir names,
      path_join folder_path filename = file_path ->
      listdir folder_path = Ok names ->
      exists out rows,
        (forall to_excel : string -> table -> result unit,
            main listdir fs to_excel
            = (out, to_excel output_file (columns, rows))) /\
        Forall (fun row => hd_error row <> Some (VStr filename)) rows).
Proof.
  intros Hfs Hnone.
  assert (Hp : exists out,
      process_nmon_file fs file_path = (out, Ok None) /\
      (headers_well_formed lines = true ->
       last out = Some (WarnNoLpar file_path)) /\
      (headers_well_formed lines = false ->
       last out = Some (ErrProcessing file_path IndexError) /\
       ~ In (WarnNoLpar file_path) out)).
  { rewrite (process_nmon_file_read _ _ _ Hfs), process_lines_eq.
    rewrite <- (is_ok_scan lines initial_state).
    pose proof (scan_log_no_skip lines initial_state) as Hlog.
    destruct (scan lines initial_state) as [out1 [st|e]] eqn:Hscan;
      cbn [fst snd is_ok] in *.
    - destruct (scan_ok lines _ _ _ Hscan) as (_ & Hl & _ & _).
      cbn in Hl. rewrite Hnone in Hl.
      rewrite bind_ok, (summarise_no_lpar _ _ Hl). cbn.
      exists (out1 ++ [WarnNoLpar file_path]).
      split; [reflexivity|]. split; [intros _; apply last_snoc|discriminate].
    - rewrite bind_raise. cbn. rewrite (scan_raises _ _ _ _ Hscan).
      exists (out1 ++ [ErrProcessing file_path IndexError]).
      split; [reflexivity|]. split; [discriminate|].
      intros _. split; [apply last_snoc|].
      intros Hin. apply in_app_or in Hin. destruct Hin as [Hin|[Hin|[]]].
      + by apply (no_skip_not_In out1 (WarnNoLpar file_path) Hlog).
      + discriminate. }
  split; [exact Hp|].
  intros filename listdir names Hpath Hls.
  destruct (main_table listdir fs names Hls) as (out & rows & Hmain & Hrows).
  exists out, rows. split; [exact Hmain|].
  revert Hrows. apply List.Forall_impl.
  intros row (_ & f & r & -> & _ & Hr). cbn. intros [= <-].
  destruct Hp as (out' & Hp & _). rewrite Hpath, Hp in Hr. discriminate.
Qed.

Lemma C8_witness :
  (exists out,
      process_nmon_file
        (Samples.one_file "empty.nmon"
           [Samples.line "PROC,T0001,1,2"; "LPAR,T0001,1"])
        (path_join folder_path "empty.nmon") = (out, Ok None) /\
      last out = Some (WarnNoLpar (path_join folder_path "empty.nmon"))) /\
  (exists out rows,
      (forall to_excel : string -> table -> result unit,
          main (fun _ => Ok ["empty.nmon"])
            (Samples.one_file "empty.nmon"
               [Samples.line "PROC,T0001,1,2"; "LPAR,T0001,1"]) to_excel
          = (out, to_excel output_file (columns, rows))) /\
      Forall (fun row => hd_error row <> Some (VStr "empty.nmon")) rows).
Proof.
  destruct (C8_no_lpar_record_no_row
              (Samples.one_file "empty.nmon"
                 [Samples.line "PROC,T0001,1,2"; "LPAR,T0001,1"])
              (path_join folder_path "empty.nmon")
              [Samples.line "PROC,T0001,1,2"; "LPAR,T0001,1"]
              eq_refl eq_refl) as [(out & Hp & Hwarn & _) Hmain].
  split.
  - exists out. split; [exact Hp|]. apply Hwarn. reflexivity.
  - exact (Hmain "empty.nmon" (fun _ => Ok ["empty.nmon"]) ["empty.nmon"]
             eq_refl eq_refl).
Defined.

(** The claim as stated fails: a file with no LPAR line and a header
    line without its field gets no tuple, and the one message printed
    is the error of the pipeline boundary, not a warning. *)
Lemma C8_counterexample :
  lpar_records Samples.no_lpar_bad_header = [] /\
  headers_well_formed Samples.no_lpar_bad_header = false /\
  process_nmon_file (Samples.one_file "f.nmon" Samples.no_lpar_bad_header)
    (path_join folder_path "f.nmon")
  = ([ErrProcessing (path_join folder_path "f.nmon") IndexError], Ok None).
Proof. repeat split; vm_compute; reflexivity. Qed.

(* ===================================================================== *)
(** ** Order statistics and the percentile (C3) *)
(* ===================================================================== *)

Section SortFacts.








Lemma dropna_not_nan (l : list float) :
  List.Forall (fun y => isnan y = false) (dropna l).
Proof.
  apply List.Forall_forall. intros x Hx. unfold dropna in Hx.
  apply filter_In in Hx. destruct Hx as [_ Hx]. by apply negb_true_iff.
Qed.



End SortFacts.




(* ===================================================================== *)
(** ** The memory reducer (C7) *)
(* ===================================================================== *)

Section MemoryFacts.

Lemma astype_float_cells (k : nat) (df : DataFrame) (s : Series) :
  astype_float (column df k) = Ok s -> s = map (cell_float k) df.
Proof.
  unfold column. revert s. induction df as [|row df IH]; intros s; cbn.
  - by intros [= <-].
  - unfold cell_float at 1.
    destruct (nth_error row k) as [t|].
    + destruct (py_float t) as [x|]; [|discriminate].
      destruct (astype_float _) as [xs|]; cbn; [|discriminate].
      intros [= <-]. by rewrite (IH xs eq_refl).
    + destruct (astype_float _) as [xs|]; cbn; [|discriminate].
      intros [= <-]. by rewrite (IH xs eq_refl).
Qed.

Lemma float_iloc_cells (k : nat) (df : DataFrame) (s : Series) :
  float_iloc df k = Ok s -> s = map (cell_float k) df.
Proof.
  unfold float_iloc, iloc. destruct (k <? ncols df)%nat; [|discriminate].
  apply astype_float_cells.
Qed.

Lemma sub_map {X : Type} (f g : X -> float) (l : list X) :
  sub (map f l) (map g l) = map (fun x => fsub (f x) (g x)) l.
Proof. induction l as [|x l IH]; cbn; [reflexivity|]. by rewrite IH. Qed.

(** The [used] series, record by record. *)
Lemma memory_used_rows (mem_df : DataFrame) (o : os) (used : Series) :
  memory_used mem_df o = Ok used -> used = map (used_of o) mem_df.
Proof.
  unfold memory_used, used_of. destruct o.
  - destruct (float_iloc mem_df 6) as [a|] eqn:Ea; [|discriminate].
    destruct (float_iloc mem_df 4) as [b|] eqn:Eb; [|discriminate].
    cbn. intros [= <-].
    rewrite (float_iloc_cells _ _ _ Ea), (float_iloc_cells _ _ _ Eb).
    apply sub_map.
  - destruct (float_iloc mem_df 2) as [a|] eqn:Ea; [|discriminate].
    destruct (float_iloc mem_df 7) as [b|] eqn:Eb; [|discriminate].
    cbn. intros [= <-].
    rewrite (float_iloc_cells _ _ _ Ea), (float_iloc_cells _ _ _ Eb).
    apply sub_map.
Qed.



End MemoryFacts.

Section ConstantSeries.
Variable c : float.
Hypothesis c_not_nan : isnan c = false.




End ConstantSeries.





(* ===================================================================== *)
(** ** Further properties of the scan *)
(* ===================================================================== *)

Lemma startswith_excl_true (a b : ascii) (p q line : string) :
  a <> b -> startswith line (String a p) = true ->
  startswith line (String b q) = true -> False.
Proof.
  intros Hab Ha Hb. rewrite (startswith_head_excl a b p q line Hab Ha) in Hb.
  discriminate.
Qed.

(** X2: the scan prints one warning for every LPAR line with fewer
    than 14 fields and every PROC line with fewer than 3, in file order,
    and nothing else: a MEM line with fewer than 8 fields is dropped
    without a message. When the scan raises, the messages are those of
    the lines read so far. *)
Theorem X2_scan_prints_only_lpar_and_proc_warnings
  (lines : list string) (st : scan_state) :
  (is_ok (snd (scan lines st)) = true ->
   fst (scan lines st) = omap scan_warning lines) /\
  (exists n, fst (scan lines st) = omap scan_warning (firstn n lines)) /\
  (forall line, startswith line "MEM,T" = true ->
                scan_warning line = None /\
                ((length (split comma (strip line)) < 8)%nat ->
                 scan_line line st = ([], Ok st))) /\
  (forall line, startswith line "LPAR,T" = true ->
                (length (split comma (strip line)) < 14)%nat ->
                scan_line line st = ([WarnLparFormat (strip line)], Ok st)) /\
  (forall line, startswith line "PROC,T" = true ->
                (length (split comma (strip line)) < 3)%nat ->
                scan_line line st = ([WarnProcFormat (strip line)], Ok st)).
Proof.
  destruct (scan_log lines st) as [Hok Hn].
  split; [exact Hok|]. split; [exact Hn|]. split; [|split].
  - intros line Hmem.
    assert (Ha : startswith line "AAA,AIX" = false)
      by (apply (startswith_head_excl "M" "A" "EM,T" "AA,AIX"); [discriminate|done]).
    assert (Hl : startswith line "LPAR,T" = false)
      by (apply (startswith_head_excl "M" "L" "EM,T" "PAR,T"); [discriminate|done]).
    assert (Hp : startswith line "PROC,T" = false)
      by (apply (startswith_head_excl "M" "P" "EM,T" "ROC,T"); [discriminate|done]).
    split.
    + unfold scan_warning. by rewrite Ha, Hl, Hp.
    + intros Hlen. unfold scan_line. rewrite Ha, Hl, Hp, Hmem.
      apply Nat.leb_gt in Hlen. by rewrite Hlen.
  - intros line Hlpar Hlen.
    assert (Ha : startswith line "AAA,AIX" = false)
      by (apply (startswith_head_excl "L" "A" "PAR,T" "AA,AIX"); [discriminate|done]).
    unfold scan_line. rewrite Ha, Hlpar.
    apply Nat.leb_gt in Hlen. by rewrite Hlen.
  - intros line Hproc Hlen.
    assert (Ha : startswith line "AAA,AIX" = false)
      by (apply (startswith_head_excl "P" "A" "ROC,T" "AA,AIX"); [discriminate|done]).
    assert (Hl : startswith line "LPAR,T" = false)
      by (apply (startswith_head_excl "P" "L" "ROC,T" "PAR,T"); [discriminate|done]).
    unfold scan_line. rewrite Ha, Hl, Hproc.
    apply Nat.leb_gt in Hlen. by rewrite Hlen.
Qed.

Lemma record_of_some (tag : string) (w : nat) (line : string) (r : list string) :
  record_of tag w line = Some r ->
  startswith line tag = true /\ r = split comma (strip line) /\
  (w <= length r)%nat.
Proof.
  unfold record_of. destruct (startswith line tag); [|discriminate].
  destruct (w <=? _)%nat eqn:E; [|discriminate].
  intros [= <-]. apply Nat.leb_le in E. auto.
Qed.

Lemma records_fields (tag : string) (w : nat) (lines : list string) :
  List.Forall (fun r => exists line,
                   In line lines /\ startswith line tag = true /\
                   r = split comma (strip line) /\ (w <= length r)%nat)
    (omap (record_of tag w) lines).
Proof.
  induction lines as [|line rest IH]; cbn; [constructor|].
  assert (Hrest : List.Forall (fun r => exists l,
                   In l (line :: rest) /\ startswith l tag = true /\
                   r = split comma (strip l) /\ (w <= length r)%nat)
                    (omap (record_of tag w) rest)).
  { revert IH. apply List.Forall_impl. intros r (l & ? & ?). exists l. cbn. auto. }
  destruct (record_of tag w line) as [r|] eqn:E; [|exact Hrest].
  constructor; [|exact Hrest].
  exists line. destruct (record_of_some _ _ _ _ E) as (? & ? & ?). cbn. auto.
Qed.

Lemma astype_float_raise_inv (s : ObjSeries) (e : exn) :
  astype_float s = Raise e ->
  exists t, e = ValueError t /\ In (Some t) s /\ py_float t = None.
Proof.
  induction s as [|[t|] s IH]; cbn; [discriminate| |].
  - destruct (py_float t) eqn:Et.
    + destruct (astype_float s) as [xs|e']; cbn; [discriminate|].
      intros [= <-]. destruct (IH eq_refl) as (t' & ? & ? & ?). eauto 6.
    + intros [= <-]. eauto 6.
  - destruct (astype_float s) as [xs|e']; cbn; [discriminate|].
    intros [= <-]. destruct (IH eq_refl) as (t' & ? & ? & ?). eauto 6.
Qed.

(** A column every record reaches: the read fails only on a cell that
    is not a number. *)
Lemma float_iloc_wide (df : DataFrame) (k : nat) :
  df <> [] ->
  List.Forall (fun row => (k < length row)%nat) df ->
  (forall e, float_iloc df k = Raise e ->
             exists row t, e = ValueError t /\ In row df /\
                           nth_error row k = Some t /\ py_float t = None) /\
  (is_ok (float_iloc df k) = forallb (cell_converts k) df).
Proof.
  intros Hne Hwide.
  assert (Hk : (k <? ncols df)%nat = true).
  { destruct df as [|row df]; [done|]. apply Nat.ltb_lt.
    apply Forall_inv in Hwide.
    pose proof (ncols_ge (row :: df) row (or_introl eq_refl)). lia. }
  split.
  - intros e. unfold float_iloc, iloc. rewrite Hk. cbn [rbind]. intros He.
    destruct (astype_float_raise_inv _ _ He) as (t & -> & Hin & Ht).
    unfold column in Hin. apply in_map_iff in Hin. destruct Hin as (row & Hr & Hin).
    exists row, t. auto.
  - destruct (forallb (cell_converts k) df) eqn:E.
    + rewrite (float_iloc_column k df Hne); [reflexivity|].
      apply List.Forall_forall. intros row Hin.
      exact (proj1 (forallb_forall _ _) E row Hin).
    + assert (Hex : exists row, In row df /\ cell_converts k row = false).
      { clear -E. induction df as [|row df IH]; [discriminate|]. cbn in E.
        destruct (cell_converts k row) eqn:Er.
        - destruct (IH E) as (r & ? & ?). exists r. cbn. auto.
        - exists row. cbn. auto. }
      destruct Hex as (row & Hin & Hc).
      pose proof (proj1 (List.Forall_forall _ _) Hwide row Hin) as Hlen.
      cbn beta in Hlen. unfold cell_converts in Hc.
      destruct (nth_error row k) as [t|] eqn:Et.
      2:{ apply nth_error_None in Et. lia. }
      destruct (py_float t) eqn:Ep; [discriminate|].
      destruct (float_iloc_raises k df) as [e ->]; [|reflexivity].
      exists row, t. auto.
Qed.

Lemma records_wide (tag : string) (w k : nat) (lines : list string) :
  (k < w)%nat ->
  List.Forall (fun row => (k < length row)%nat) (omap (record_of tag w) lines).
Proof.
  intros Hk. pose proof (records_fields tag w lines) as H.
  revert H. apply List.Forall_impl. intros r (l & _ & _ & _ & Hw). lia.
Qed.

Lemma In_omap {X Y : Type} (f : X -> option Y) (l : list X) (x : X) (y : Y) :
  In x l -> f x = Some y -> In y (omap f l).
Proof.
  intros Hin Hf. induction l as [|a l IH]; [destruct Hin|].
  rewrite (omap_cons_app f a l). apply in_or_app.
  destruct Hin as [->|Hin]; [left|right; auto].
  cbn. rewrite Hf. cbn. auto.
Qed.

(** X3: after the scan, [lpar_data], [proc_data] and [mem_data] hold
    the comma split of stripped lines of the file with their tag, each
    with the field count of its kind (14 for LPAR, 3 for PROC, 8 for
    MEM), and every such line is retained; the column reads of the
    pipeline (LPAR 2 or 10, PROC 2) therefore always find their cell and
    fail only with the [ValueError] of a cell that is not a number. *)
Theorem X3_retained_records_have_their_fields
  (lines : list string) (out : list message) (st : scan_state) :
  scan lines initial_state = (out, Ok st) ->
  List.Forall (fun r => exists line,
                   In line lines /\ startswith line "LPAR,T" = true /\
                   r = split comma (strip line) /\ (14 <= length r)%nat)
    (lpar_data st) /\
  List.Forall (fun r => exists line,
                   In line lines /\ startswith line "PROC,T" = true /\
                   r = split comma (strip line) /\ (3 <= length r)%nat)
    (proc_data st) /\
  List.Forall (fun r => exists line,
                   In line lines /\ startswith line "MEM,T" = true /\
                   r = split comma (strip line) /\ (8 <= length r)%nat)
    (mem_data st) /\
  (forall line, In line lines -> startswith line "LPAR,T" = true ->
                (14 <= length (split comma (strip line)))%nat ->
                In (split comma (strip line)) (lpar_data st)) /\
  (forall e : exn,
      float_iloc (lpar_data st) (cpu_usage_col_index (os_type st)) = Raise e ->
      lpar_data st <> [] ->
      exists row t, e = ValueError t /\ In row (lpar_data st) /\
                    nth_error row (cpu_usage_col_index (os_type st)) = Some t /\
                    py_float t = None) /\
  (forall e : exn,
      run_queue (proc_data st) = Raise e ->
      exists row t, e = ValueError t /\ In row (proc_data st) /\
                    nth_error row 2 = Some t /\ py_float t = None).
Proof.
  intros Hscan.
  destruct (scan_ok lines _ _ _ Hscan) as (_ & Hl & Hp & Hm).
  cbn in Hl, Hp, Hm. rewrite Hl, Hp, Hm.
  split; [apply records_fields|]. split; [apply records_fields|].
  split; [apply records_fields|]. split; [|split].
  - intros line Hin Htag Hlen. apply (In_omap _ _ line); [exact Hin|].
    unfold record_of. rewrite Htag.
    apply Nat.leb_le in Hlen. by rewrite Hlen.
  - intros e He Hne.
    apply (proj1 (float_iloc_wide _ _ Hne
                    (records_wide "LPAR,T" 14 (cpu_usage_col_index (os_type st))
                       lines ltac:(destruct (os_type st); cbn; lia)))).
    exact He.
  - intros e He. unfold run_queue in He.
    destruct (proc_records lines) as [|row rest] eqn:E; [discriminate|].
    destruct (float_iloc (row :: rest) 2) as [s|e'] eqn:Ef; [discriminate|].
    injection He as ->. rewrite <- E in *.
    apply (proj1 (float_iloc_wide (proc_records lines) 2
                    ltac:(rewrite E; discriminate)
                    (records_wide "PROC,T" 3 2 lines ltac:(lia)))).
    exact Ef.
Qed.

Lemma X3_witness :
  exists out st row t,
    scan Samples.control_run_queue initial_state = (out, Ok st) /\
    run_queue (proc_data st) = Raise (ValueError t) /\
    In row (proc_data st) /\ nth_error row 2 = Some t /\ py_float t = None.
Proof.
  destruct (scan Samples.control_run_queue initial_state) as [out [st|e]] eqn:Hscan;
    [|vm_compute in Hscan; discriminate].
  destruct (run_queue (proc_data st)) as [rq|e] eqn:Hrq.
  { exfalso. vm_compute in Hscan. injection Hscan as _ <-.
    vm_compute in Hrq. discriminate. }
  destruct (X3_retained_records_have_their_fields _ _ _ Hscan)
    as (_ & _ & _ & _ & _ & H).
  destruct (H e Hrq) as (row & t & -> & Hin & Ht & Hf).
  exists out, st, row, t. auto.
Defined.

(* ===================================================================== *)
(** ** Further properties of the Header Extractor *)
(* ===================================================================== *)

Lemma parse_system_info_store (line : string) (info : gmap string string) :
  parse_system_info line info =
  (kv <~ header_field line ;; Ok (store kv info)).
Proof.
  unfold parse_system_info, header_field.
  rewrite after_last_colon_tail. cbn [rbind].
  repeat match goal with
         | |- context [if contains ?m line then _ else _] =>
             destruct (contains m line)
         end; try reflexivity;
    match goal with
    | |- context [item ?l ?i] => by destruct (item l i)
    end.
Qed.

Lemma header_field_key (line : string) (k v : string) :
  header_field line = Ok (Some (k, v)) -> In k info_keys.
Proof.
  unfold header_field, info_keys.
  repeat match goal with
         | |- context [if contains ?m line then _ else _] =>
             destruct (contains m line)
         end; try discriminate;
    repeat match goal with
           | |- context [item ?l ?i] => destruct (item l i)
           end; cbn [rbind]; try discriminate; intros [= <- <-]; cbn; tauto.
Qed.

(** X4: the Header Extractor changes the dictionary by at most one
    insertion, of a key among the five and of a value that depends on
    the line alone: the other keys keep their value, the key written
    reads back the line's value whatever was stored before (the last
    write wins), a second call with the same line changes nothing, and
    whether the call raises does not depend on the dictionary. *)
Theorem X4_header_extractor_writes_one_key
  (line : string) (info : gmap string string) :
  parse_system_info line info = (kv <~ header_field line ;; Ok (store kv info)) /\
  is_ok (parse_system_info line info) = is_ok (header_field line) /\
  (forall info', parse_system_info line info = Ok info' ->
     parse_system_info line info' = Ok info' /\
     match header_field line with
     | Ok (Some (k, v)) =>
         In k info_keys /\ info' !! k = Some v /\
         (forall k', k' <> k -> info' !! k' = info !! k')
     | _ => info' = info
     end) /\
  (forall line2 info' info'' k v,
     parse_system_info line info = Ok info' ->
     parse_system_info line2 info' = Ok info'' ->
     header_field line = Ok (Some (k, v)) ->
     info'' !! k = match header_field line2 with
                   | Ok (Some (k2, v2)) => if String.eqb k2 k then Some v2 else Some v
                   | _ => Some v
                   end).
Proof.
  split; [apply parse_system_info_store|].
  split.
  { rewrite parse_system_info_store. by destruct (header_field line). }
  split.
  - intros info'. rewrite !parse_system_info_store.
    destruct (header_field line) as [[[k v]|]|e] eqn:E; cbn; try discriminate.
    + intros [= <-]. split; [by rewrite insert_insert_eq|].
      split; [exact (header_field_key _ _ _ E)|].
      split; [apply lookup_insert_eq|].
      intros k' Hk. by apply lookup_insert_ne.
    + by intros [= <-].
  - intros line2 info' info'' k v. rewrite !parse_system_info_store.
    intros H1 H2 Hf. rewrite Hf in H1. cbn in H1. injection H1 as <-.
    destruct (header_field line2) as [[[k2 v2]|]|e]; cbn in H2; try discriminate;
      injection H2 as <-.
    + destruct (String.eqb_spec k2 k) as [->|Hne].
      * apply lookup_insert_eq.
      * rewrite lookup_insert_ne by done. apply lookup_insert_eq.
    + apply lookup_insert_eq.
Qed.

Lemma scan_line_info (line : string) (st st' : scan_state) (out : list message) :
  scan_line line st = (out, Ok st') ->
  system_info st' = store (written line) (system_info st).
Proof.
  unfold scan_line, written, is_header_line.
  destruct (startswith line "AAA,AIX"); [by intros [= <- <-]|].
  destruct (startswith line "LPAR,T").
  { destruct (14 <=? _)%nat; by intros [= <- <-]. }
  destruct (startswith line "PROC,T").
  { destruct (3 <=? _)%nat; by intros [= <- <-]. }
  destruct (startswith line "MEM,T").
  { destruct (8 <=? _)%nat; by intros [= <- <-]. }
  cbn [orb negb]. rewrite parse_system_info_store.
  destruct (header_field line) as [kv|e]; cbn; [|discriminate].
  by intros [= <- <-].
Qed.

Lemma scan_info (lines : list string) :
  forall (st st' : scan_state) (out : list message),
    scan lines st = (out, Ok st') ->
    system_info st' =
    fold_left (fun info line => store (written line) info) lines (system_info st).
Proof.
  induction lines as [|line rest IH]; intros st st' out; cbn [scan fold_left].
  - by intros [= <- <-].
  - destruct (scan_line line st) as [out1 [st1|e]] eqn:Hline; [|discriminate].
    rewrite bind_ok. destruct (scan rest st1) as [out2 r] eqn:Hrest.
    cbn [fst snd]. intros [= <- ->].
    by rewrite (IH _ _ _ Hrest), (scan_line_info _ _ _ _ Hline).
Qed.

Lemma store_other (kv : option (string * string)) (info : gmap string string)
  (k : string) :
  option_map fst kv <> Some k -> store kv info !! k = info !! k.
Proof.
  destruct kv as [[k' v]|]; cbn; [|done].
  intros H. apply lookup_insert_ne. congruence.
Qed.

Lemma fold_store_other (lines : list string) (k : string) :
  (forall line, In line lines -> written_key line <> Some k) ->
  forall info,
    fold_left (fun info line => store (written line) info) lines info !! k
    = info !! k.
Proof.
  induction lines as [|line rest IH]; intros Hno info; cbn [fold_left];
    [reflexivity|].
  rewrite IH by (intros l Hl; apply Hno; cbn; auto).
  apply store_other. apply (Hno line). cbn. auto.
Qed.

Lemma fold_store_keys (lines : list string) :
  forall info k,
    is_Some (fold_left (fun info line => store (written line) info) lines info !! k) ->
    is_Some (info !! k) \/ In k info_keys.
Proof.
  induction lines as [|line rest IH]; intros info k; cbn [fold_left]; [auto|].
  intros H. destruct (IH _ _ H) as [Hs|Hk]; [|auto].
  unfold written in Hs. destruct (is_header_line line); [|auto].
  destruct (header_field line) as [[[k' v]|]|e] eqn:E; cbn in Hs; auto.
  destruct (String.eqb_spec k' k) as [<-|Hne].
  - right. exact (header_field_key _ _ _ E).
  - rewrite lookup_insert_ne in Hs by done. auto.
Qed.

(** X5: after the scan of a file, SystemInfo holds only keys among the
    five; a key that no header line of the file writes is absent and
    reads as N/A, whatever markers the metric lines (LPAR, PROC, MEM,
    the AIX signature) contain; a key written by several header lines
    holds the value of the last one. *)
Theorem X5_system_info_after_scan
  (lines : list string) (out : list message) (st : scan_state) :
  scan lines initial_state = (out, Ok st) ->
  (forall k, is_Some (system_info st !! k) -> In k info_keys) /\
  (forall k, (forall line, In line lines -> written_key line <> Some k) ->
             system_info st !! k = None /\ get_info (system_info st) k = "N/A") /\
  (forall before line after k v,
      lines = before ++ line :: after ->
      written line = Some (k, v) ->
      (forall l, In l after -> written_key l <> Some k) ->
      system_info st !! k = Some v /\ get_info (system_info st) k = v) /\
  (forall line, is_header_line line = false -> written line = None).
Proof.
  intros Hscan. pose proof (scan_info lines _ _ _ Hscan) as Hinfo.
  cbn [system_info initial_state] in Hinfo.
  split; [|split; [|split]].
  - intros k Hk. rewrite Hinfo in Hk.
    destruct (fold_store_keys _ _ _ Hk) as [H|H]; [|exact H].
    rewrite lookup_empty in H. by destruct H.
  - intros k Hno.
    assert (H : system_info st !! k = None).
    { rewrite Hinfo, (fold_store_other _ _ Hno). apply lookup_empty. }
    split; [exact H|]. unfold get_info. by rewrite H.
  - intros before line after k v -> Hw Hafter.
    assert (H : system_info st !! k = Some v).
    { rewrite Hinfo, fold_left_app. cbn [fold_left].
      rewrite (fold_store_other _ _ Hafter), Hw. apply lookup_insert_eq. }
    split; [exact H|]. unfold get_info. by rewrite H.
  - intros line H. unfold written. by rewrite H.
Qed.

Lemma X5_witness :
  exists out st,
    scan [Samples.line "AAA,date,01-JAN-2024";
          Samples.line "AAA,x,lparname,host1";
          Samples.line "AAA,date,02-FEB-2024"] initial_state = (out, Ok st) /\
    get_info (system_info st) "LPAR Name" = "host1" /\
    get_info (system_info st) "Date" = Samples.line "02-FEB-2024" /\
    get_info (system_info st) "System Model" = "N/A".
Proof.
  eexists _, _. split; [vm_compute; reflexivity|].
  edestruct (X5_system_info_after_scan
               [Samples.line "AAA,date,01-JAN-2024";
                Samples.line "AAA,x,lparname,host1";
                Samples.line "AAA,date,02-FEB-2024"])
    as (_ & Hnone & H & _); [vm_compute; reflexivity|].
  split; [|split].
  - refine (proj2 (H [Samples.line "AAA,date,01-JAN-2024"]
                     (Samples.line "AAA,x,lparname,host1")
                     [Samples.line "AAA,date,02-FEB-2024"]
                     "LPAR Name" "host1" eq_refl _ _)).
    + vm_compute. reflexivity.
    + intros l [<-|[]]. vm_compute. discriminate.
  - refine (proj2 (H [Samples.line "AAA,date,01-JAN-2024";
                      Samples.line "AAA,x,lparname,host1"]
                     (Samples.line "AAA,date,02-FEB-2024")
                     [] "Date" (Samples.line "02-FEB-2024") eq_refl _ _)).
    + vm_compute. reflexivity.
    + intros l [].
  - refine (proj2 (Hnone "System Model" _)).
    intros l [<-|[<-|[<-|[]]]]; vm_compute; discriminate.
Defined.

(* ===================================================================== *)
(** ** Further properties of the file pipeline *)
(* ===================================================================== *)

Lemma run_queue_is_ok (lines : list string) :
  is_ok (run_queue (proc_records lines)) =
  forallb (cell_converts 2) (proc_records lines).
Proof.
  unfold run_queue.
  destruct (proc_records lines) as [|row rest] eqn:E; [reflexivity|].
  rewrite <- E.
  rewrite <- (proj2 (float_iloc_wide (proc_records lines) 2
                       ltac:(rewrite E; discriminate)
                       (records_wide "PROC,T" 3 2 lines ltac:(lia)))).
  by destruct (float_iloc (proc_records lines) 2).
Qed.

Lemma cpu_column_is_ok (lines : list string) (o : os) :
  lpar_records lines <> [] ->
  is_ok (float_iloc (lpar_records lines) (cpu_usage_col_index o)) =
  forallb (cell_converts (cpu_usage_col_index o)) (lpar_records lines).
Proof.
  intros Hne.
  apply (proj2 (float_iloc_wide _ _ Hne
                  (records_wide "LPAR,T" 14 (cpu_usage_col_index o) lines
                     ltac:(destruct o; cbn; lia)))).
Qed.

Lemma metrics_func_log (o : os) (data : DataFrame) :
  no_skip_message (fst (metrics_func o data)) = true.
Proof.
  rewrite metrics_func_eq. destruct (metrics_body o data); [reflexivity|].
  by destruct o.
Qed.

Lemma memory_log (mem_df : DataFrame) (o : os) :
  no_skip_message (fst (calculate_memory_metrics mem_df o)) = true.
Proof.
  rewrite calculate_memory_metrics_eq.
  by destruct (memory_metrics_body mem_df o).
Qed.

(** With LPAR records, [summarise] prints no skip message. *)
Lemma summarise_log (file_path : string) (st : scan_state) :
  lpar_data st <> [] ->
  no_skip_message (fst (summarise file_path st)) = true.
Proof.
  intros Hne. rewrite (summarise_lpar _ _ Hne).
  pose proof (metrics_func_log (os_type st) (lpar_data st)) as H1.
  pose proof (memory_log (mem_data st) (os_type st)) as H2.
  destruct (metrics_func_total (os_type st) (lpar_data st))
    as (out1 & metrics & E1 & _). rewrite E1 in *. cbn [fst] in H1.
  destruct (calculate_memory_metrics_total (mem_data st) (os_type st))
    as (out2 & mem & E2 & _). rewrite E2 in *. cbn [fst] in H2.
  rewrite bind_ok.
  destruct (run_queue (proc_data st)); cbn; [|by rewrite app_nil_r].
  destruct (float_iloc _ _); cbn; [|by rewrite app_nil_r].
  by rewrite app_nil_r, no_skip_app, H1, H2.
Qed.

(** X6: [process_nmon_file] never raises; it returns a result tuple
    exactly when the file can be read, none of its header lines is
    malformed, it retains an LPAR record, and every retained PROC record
    has a number in field 2 and every retained LPAR record a number in
    the percentile column of the file's flavor (2 for AIX, 10 for
    Linux); a file that cannot be read gives no tuple and the one
    message of the pipeline boundary. *)
Theorem X6_result_exactly_when_file_is_sound
  (fs : string -> option (list string)) (file_path : string) :
  (exists out r, process_nmon_file fs file_path = (out, Ok r)) /\
  (forall lines, fs file_path = Some lines ->
                 has_result (process_nmon_file fs file_path)
                 = produces_result lines) /\
  (fs file_path = None ->
   process_nmon_file fs file_path =
   ([ErrProcessing file_path (OSError file_path)], Ok None)).
Proof.
  split; [apply process_nmon_file_total|]. split.
  - intros lines Hfs. unfold has_result, produces_result.
    rewrite (process_nmon_file_read _ _ _ Hfs), process_lines_eq.
    rewrite <- (is_ok_scan lines initial_state).
    destruct (scan lines initial_state) as [out1 [st|e]] eqn:Hscan;
      [|reflexivity].
    destruct (scan_ok lines _ _ _ Hscan) as (Hos & Hl & Hp & _).
    cbn in Hos, Hl, Hp. fold (flavor lines) in Hos.
    rewrite bind_ok. cbn [snd is_ok andb].
    assert (Hcase : lpar_records lines = [] \/ lpar_records lines <> [])
      by (destruct (lpar_records lines); [by left|by right]).
    destruct Hcase as [El|Hne'].
    { rewrite El in *. by rewrite (summarise_no_lpar _ _ Hl). }
    assert (Hne : lpar_data st <> []) by (by rewrite Hl).
    assert (Hlen : negb (length (lpar_records lines) =? 0)%nat = true).
    { rewrite <- Hl. destruct (lpar_data st); [done|reflexivity]. }
    rewrite Hlen. cbn [andb].
    rewrite <- run_queue_is_ok, <- (cpu_column_is_ok lines (flavor lines))
      by (by rewrite <- Hl).
    rewrite <- Hp, <- Hl, <- Hos.
    destruct (run_queue (proc_data st)) as [rq|e] eqn:Hrq.
    2:{ destruct (summarise_rq_raises file_path st e Hne Hrq) as [o ->].
        reflexivity. }
    destruct (float_iloc (lpar_data st) (cpu_usage_col_index (os_type st)))
      as [cpu|e] eqn:Hcpu.
    2:{ destruct (summarise_cpu_raises file_path st e Hne Hcpu) as (o & e' & ->).
        reflexivity. }
    destruct (summarise_some file_path st rq cpu Hne Hrq Hcpu)
      as (o & metrics & mem & -> & _). reflexivity.
  - intros Hfs. unfold process_nmon_file, readlines. by rewrite Hfs.
Qed.

Lemma X6_witness :
  has_result (process_nmon_file
                (Samples.one_file "f.nmon" Samples.control_run_queue)
                (path_join folder_path "f.nmon")) = false /\
  produces_result Samples.control_run_queue = false /\
  has_result (process_nmon_file
                (Samples.one_file "f.nmon" Samples.zero_run_queue)
                (path_join folder_path "f.nmon")) = true.
Proof.
  destruct (X6_result_exactly_when_file_is_sound
              (Samples.one_file "f.nmon" Samples.control_run_queue)
              (path_join folder_path "f.nmon")) as (_ & H & _).
  destruct (X6_result_exactly_when_file_is_sound
              (Samples.one_file "f.nmon" Samples.zero_run_queue)
              (path_join folder_path "f.nmon")) as (_ & H' & _).
  rewrite (H Samples.control_run_queue eq_refl).
  rewrite (H' Samples.zero_run_queue eq_refl).
  repeat split; vm_compute; reflexivity.
Defined.

(** X7: a result tuple has 24 cells, five strings followed by nineteen
    numbers, and the call that returns one prints no skip message (no
    no-LPAR warning, no pipeline error). *)
Theorem X7_result_tuple_shape
  (fs : string -> option (list string)) (file_path : string)
  (out : list message) (row : list value) :
  process_nmon_file fs file_path = (out, Ok (Some row)) ->
  length row = 24%nat /\
  forallb is_string (firstn 5 row) = true /\
  forallb is_numeric (skipn 5 row) = true /\
  no_skip_message out = true.
Proof.
  intros H. destruct (process_nmon_file_some_inv _ _ _ _ H)
    as (lines & out1 & st & out2 & _ & Hscan & Hsum & ->).
  destruct (summarise_some_inv _ _ _ _ Hsum)
    as (rq & cpu & metrics & mem & Hne & _ & _ & Hm & Hmem & H1 & H2 & ->).
  split; [by apply result_row_length|]. split; [reflexivity|]. split.
  - unfold identity_cells. cbn [app skipn].
    destruct (metrics_func_total (os_type st) (lpar_data st))
      as (o1 & vs & E1 & _ & Hn1). rewrite E1 in Hm. injection Hm as ->.
    destruct (calculate_memory_metrics_total (mem_data st) (os_type st))
      as (o2 & ws & E2 & _ & Hn2). rewrite E2 in Hmem. injection Hmem as ->.
    rewrite skipn_O, forallb_app, Hn1. cbn. exact Hn2.
  - rewrite no_skip_app.
    pose proof (scan_log_no_skip lines initial_state) as Hs.
    rewrite Hscan in Hs. cbn [fst] in Hs. rewrite Hs.
    pose proof (summarise_log file_path st Hne) as Hs'.
    rewrite Hsum in Hs'. exact Hs'.
Qed.

Lemma X7_witness :
  exists out row,
    process_nmon_file (Samples.one_file "five.nmon" Samples.five_samples)
      (path_join folder_path "five.nmon") = (out, Ok (Some row)) /\
    length row = 24%nat /\
    forallb is_numeric (skipn 5 row) = true.
Proof.
  eexists _, _. split; [vm_compute; reflexivity|].
  edestruct (X7_result_tuple_shape
               (Samples.one_file "five.nmon" Samples.five_samples)
               (path_join folder_path "five.nmon"))
    as (H1 & _ & H2 & _); [vm_compute; reflexivity|].
  split; [exact H1|exact H2].
Defined.

(** X8: a file is never skipped silently: when [process_nmon_file]
    returns no tuple, the last message it printed is the no-LPAR warning
    or the error of the pipeline boundary, both with the file's path,
    and no message before it is a skip message. *)
Theorem X8_skipped_file_is_reported
  (fs : string -> option (list string)) (file_path : string)
  (out : list message) :
  process_nmon_file fs file_path = (out, Ok None) ->
  exists out' m,
    out = out' ++ [m] /\
    (m = WarnNoLpar file_path \/ exists e, m = ErrProcessing file_path e) /\
    no_skip_message out' = true.
Proof.
  unfold process_nmon_file, readlines.
  destruct (fs file_path) as [lines|].
  2:{ cbn. intros [= <-]. exists [], (ErrProcessing file_path (OSError file_path)).
      eauto. }
  rewrite bind_lift_ok, process_lines_eq.
  pose proof (scan_log_no_skip lines initial_state) as Hs.
  destruct (scan lines initial_state) as [out1 [st|e]] eqn:Hscan; cbn [fst] in Hs.
  2:{ cbn. intros [= <-]. exists out1, (ErrProcessing file_path e). eauto. }
  rewrite bind_ok.
  destruct (lpar_data st) as [|r0 rs] eqn:El.
  { rewrite (summarise_no_lpar _ _ El). cbn. intros [= <-].
    exists out1, (WarnNoLpar file_path). auto. }
  assert (Hne : lpar_data st <> []) by (rewrite El; discriminate).
  pose proof (summarise_log file_path st Hne) as Hlog.
  destruct (summarise file_path st) as [out2 [[row|]|e]] eqn:Hsum;
    cbn [fst snd try_except on_error bind print ret app] in *.
  - discriminate.
  - exfalso. rewrite (summarise_lpar _ _ Hne) in Hsum.
    destruct (metrics_func_total (os_type st) (lpar_data st))
      as (o1 & vs & E1 & _).
    destruct (calculate_memory_metrics_total (mem_data st) (os_type st))
      as (o2 & ws & E2 & _).
    rewrite E1, E2, bind_ok in Hsum.
    destruct (run_queue (proc_data st)); cbn in Hsum; [|discriminate].
    destruct (float_iloc _ _); cbn in Hsum; discriminate.
  - intros [= <-]. exists (out1 ++ out2), (ErrProcessing file_path e).
    split; [reflexivity|]. split; [eauto|].
    by rewrite no_skip_app, Hs, Hlog.
Qed.

Lemma X8_witness :
  exists out' m,
    [ErrProcessing (path_join folder_path "f.nmon") IndexError] = out' ++ [m] /\
    (m = WarnNoLpar (path_join folder_path "f.nmon") \/
     exists e, m = ErrProcessing (path_join folder_path "f.nmon") e) /\
    no_skip_message out' = true.
Proof.
  apply (X8_skipped_file_is_reported
           (Samples.one_file "f.nmon" Samples.bad_header)
           (path_join folder_path "f.nmon")).
  vm_compute. reflexivity.
Defined.

(* ===================================================================== *)
(** ** Further properties of [main] *)
(* ===================================================================== *)





(* ===================================================================== *)
(** ** Further properties of the reducers *)
(* ===================================================================== *)

Lemma float_col_length (df : DataFrame) (k : nat) (s : Series) :
  float_col df k = Ok s -> length s = length df.
Proof.
  unfold float_col, getitem. destruct (k <? ncols df)%nat; [|discriminate].
  cbn [rbind]. intros H. rewrite (astype_float_length _ _ H).
  apply length_map.
Qed.

Lemma float_col_iloc (df : DataFrame) (k : nat) (s : Series) :
  float_col df k = Ok s <-> float_iloc df k = Ok s.
Proof.
  unfold float_col, float_iloc, getitem, iloc.
  destruct (k <? ncols df)%nat; cbn [rbind]; [tauto|]. split; discriminate.
Qed.

(** The CPU cells of either reducer: minimum, total over count and
    maximum of column 2. *)
Lemma metrics_body_cpu (o : os) (data : DataFrame) (vs : list value) (s : Series) :
  metrics_body o data = Ok vs -> float_col data 2 = Ok s ->
  nth_error vs 0 = Some (VInt (Z.of_nat (length data))) /\
  nth_error vs 8 = Some (VFloat (sum s)) /\
  nth_error vs 9 = Some (VFloat (min s)) /\
  nth_error vs 10 = Some (average (sum s) (length data)) /\
  nth_error vs 11 = Some (VFloat (max s)).
Proof.
  intros H Hs.
  destruct o; cbn [metrics_body] in H;
    unfold aix_metrics_body, linux_metrics_body in H; rewrite Hs in H;
    cbn [rbind] in H;
    repeat match type of H with
           | context [float_col ?d ?k] =>
               destruct (float_col d k); cbn [rbind] in H; [|discriminate]
           end; injection H as <-; auto.
Qed.

Section MinMax.

Let not_nan (x : float) : Prop := isnan x = false.

Lemma fold_fmin2 (l : Series) :
  forall a, not_nan a -> List.Forall not_nan l ->
    In (fold_left fmin2 l a) (a :: l) /\
    fleb (fold_left fmin2 l a) a = true /\
    List.Forall (fun x => fleb (fold_left fmin2 l a) x = true) l.
Proof.
  induction l as [|b l IH]; intros a Ha Hl; cbn [fold_left].
  - split; [cbn; auto|]. split; [by apply fleb_refl|constructor].
  - inversion Hl as [|? ? Hb Hl']; subst. unfold fmin2 at 2 4 6.
    destruct (fltb b a) eqn:E.
    + destruct (IH b Hb Hl') as (Hin & Hmb & Hall).
      split; [cbn in *; tauto|]. split.
      * exact (fleb_trans _ b _ Hmb (fltb_fleb _ _ E)).
      * by constructor.
    + destruct (IH a Ha Hl') as (Hin & Hma & Hall).
      split; [cbn in *; tauto|]. split; [exact Hma|].
      constructor; [|exact Hall].
      exact (fleb_trans _ a _ Hma (fltb_false_fleb _ _ Hb Ha E)).
Qed.

Lemma fold_fmax2 (l : Series) :
  forall a, not_nan a -> List.Forall not_nan l ->
    In (fold_left fmax2 l a) (a :: l) /\
    fleb a (fold_left fmax2 l a) = true /\
    List.Forall (fun x => fleb x (fold_left fmax2 l a) = true) l.
Proof.
  induction l as [|b l IH]; intros a Ha Hl; cbn [fold_left].
  - split; [cbn; auto|]. split; [by apply fleb_refl|constructor].
  - inversion Hl as [|? ? Hb Hl']; subst. unfold fmax2 at 2 4 6.
    destruct (fltb a b) eqn:E.
    + destruct (IH b Hb Hl') as (Hin & Hbm & Hall).
      split; [cbn in *; tauto|]. split.
      * exact (fleb_trans _ b _ (fltb_fleb _ _ E) Hbm).
      * by constructor.
    + destruct (IH a Ha Hl') as (Hin & Ham & Hall).
      split; [cbn in *; tauto|]. split; [exact Ham|].
      constructor; [|exact Hall].
      exact (fleb_trans _ a _ (fltb_false_fleb _ _ Ha Hb E) Ham).
Qed.

Lemma In_dropna (s : Series) (x : float) : In x (dropna s) -> In x s /\ not_nan x.
Proof.
  unfold dropna. intros H. apply filter_In in H. destruct H as [H1 H2].
  split; [exact H1|]. by apply negb_true_iff.
Qed.

(** The minimum and the maximum of a series with a cell that is not
    NaN are cells of it and bound the cells that are not NaN. *)
Lemma min_max_attained (s : Series) :
  dropna s <> [] ->
  In (min s) s /\ In (max s) s /\ not_nan (min s) /\ not_nan (max s) /\
  List.Forall (fun x => not_nan x ->
                        fleb (min s) x = true /\ fleb x (max s) = true) s.
Proof.
  intros Hne. pose proof (dropna_not_nan s) as Hnn.
  unfold min, max.
  assert (Hmem : forall x, In x s -> not_nan x -> In x (dropna s)).
  { intros x Hx Hn. unfold dropna. apply filter_In. split; [exact Hx|].
    by apply negb_true_iff. }
  destruct (dropna s) as [|a l] eqn:E; [done|].
  inversion Hnn as [|? ? Ha Hl]; subst.
  destruct (fold_fmin2 l a Ha Hl) as (Hin & Hma & Hall).
  destruct (fold_fmax2 l a Ha Hl) as (Hin' & Ham & Hall').
  rewrite <- E in Hin, Hin'.
  destruct (In_dropna _ _ Hin) as [H1 H2].
  destruct (In_dropna _ _ Hin') as [H1' H2'].
  repeat split; try assumption.
  apply List.Forall_forall. intros x Hx Hn.
  destruct (Hmem x Hx Hn) as [<-|Hxl]; [by split|].
  split.
  - exact (proj1 (List.Forall_forall _ _) Hall x Hxl).
  - exact (proj1 (List.Forall_forall _ _) Hall' x Hxl).
Qed.

End MinMax.

(** X11: when either metric reducer succeeds, its count is the number
    of records and its Min CPU and Max CPU cells are the minimum and the
    maximum of column 2: NaN when every cell is NaN, and otherwise
    cells of the column that are not NaN and bound every cell that is
    not NaN. *)
Theorem X11_min_and_max_cpu_are_attained
  (o : os) (data : DataFrame) (vs : list value) (s : Series) :
  metrics_body o data = Ok vs ->
  float_col data 2 = Ok s ->
  nth_error vs 0 = Some (VInt (Z.of_nat (length data))) /\
  nth_error vs 9 = Some (VFloat (min s)) /\
  nth_error vs 11 = Some (VFloat (max s)) /\
  length s = length data /\
  (dropna s = [] -> min s = NaN /\ max s = NaN) /\
  (dropna s <> [] ->
   In (min s) s /\ In (max s) s /\
   isnan (min s) = false /\ isnan (max s) = false /\
   List.Forall (fun x => isnan x = false ->
                         fleb (min s) x = true /\ fleb x (max s) = true) s).
Proof.
  intros H Hs.
  destruct (metrics_body_cpu o data vs s H Hs) as (H0 & _ & H9 & _ & H11).
  split; [exact H0|]. split; [exact H9|]. split; [exact H11|].
  split; [exact (float_col_length _ _ _ Hs)|]. split.
  - intros E. unfold min, max. by rewrite E.
  - apply min_max_attained.
Qed.

Lemma X11_witness :
  exists vs,
    aix_metrics_body (lpar_records Samples.five_samples) = Ok vs /\
    nth_error vs 9 = Some (VFloat 10%float) /\
    nth_error vs 11 = Some (VFloat 50%float) /\
    In 10%float [10; 20; 30; 40; 50]%float /\
    List.Forall (fun x => isnan x = false ->
                          fleb 10%float x = true /\ fleb x 50%float = true)
      [10; 20; 30; 40; 50]%float.
Proof.
  destruct (aix_metrics_body (lpar_records Samples.five_samples))
    as [vs|e] eqn:Hb; [|vm_compute in Hb; discriminate].
  destruct (X11_min_and_max_cpu_are_attained AIX
              (lpar_records Samples.five_samples) vs
              [10; 20; 30; 40; 50]%float Hb)
    as (_ & H9 & H11 & _ & _ & Hin); [vm_compute; reflexivity|].
  destruct Hin as (Hmin & _ & _ & _ & Hall); [discriminate|].
  exists vs. split; [reflexivity|]. split; [exact H9|]. split; [exact H11|].
  split; [exact Hmin|exact Hall].
Defined.

Lemma forallb_agree {X : Type} (f g : X -> bool) (l : list X) :
  (forall x, In x l -> f x = g x) -> forallb f l = forallb g l.
Proof.
  induction l as [|x l IH]; intros H; cbn; [reflexivity|].
  rewrite (H x (or_introl eq_refl)), IH; [reflexivity|].
  intros y Hy. apply H. cbn. auto.
Qed.

Lemma is_ok_col_iloc (df : DataFrame) (k : nat) :
  is_ok (float_col df k) = is_ok (float_iloc df k).
Proof.
  unfold float_col, float_iloc, getitem, iloc.
  by destruct (k <? ncols df)%nat.
Qed.

Lemma metrics_body_of_columns (o : os) (data : DataFrame) :
  is_ok (metrics_body o data) =
  forallb (fun k => is_ok (float_col data k)) (reducer_columns o).
Proof.
  destruct o; cbn [metrics_body reducer_columns];
    unfold aix_metrics_body, linux_metrics_body, aix_columns, linux_columns;
    cbn [forallb];
    repeat match goal with
           | |- context [float_col ?d ?k] =>
               destruct (float_col d k); cbn [rbind is_ok andb]
           end; reflexivity.
Qed.

Lemma reducer_columns_width (o : os) (k : nat) :
  In k (reducer_columns o) -> (k < reducer_width o)%nat.
Proof.
  destruct o; cbn; intros H;
    repeat (destruct H as [<-|H]; [lia|]); destruct H.
Qed.

(** X13: on a non-empty collection whose records all have the fields
    the reducer reads (13 for AIX, 22 for Linux), a metric reducer
    succeeds exactly when every cell of its seven columns is a number:
    it then prints nothing and reports the number of records as the
    count; otherwise it prints its error and returns twelve zeros. *)
Theorem X13_metric_reducer_succeeds_exactly_on_numeric_columns
  (o : os) (data : DataFrame) :
  data <> [] ->
  List.Forall (fun row => (reducer_width o <= length row)%nat) data ->
  is_ok (metrics_body o data) =
  forallb (fun k => forallb (cell_converts k) data) (reducer_columns o) /\
  (forallb (fun k => forallb (cell_converts k) data) (reducer_columns o) = true ->
   exists vs, metrics_func o data = ([], Ok vs) /\
              nth_error vs 0 = Some (VInt (Z.of_nat (length data)))) /\
  (forallb (fun k => forallb (cell_converts k) data) (reducer_columns o) = false ->
   exists e, snd (metrics_func o data) = Ok (zeros 12) /\
             fst (metrics_func o data) <> [] /\
             metrics_body o data = Raise e).
Proof.
  intros Hne Hwide.
  assert (Hcols : forallb (fun k => is_ok (float_col data k)) (reducer_columns o)
                  = forallb (fun k => forallb (cell_converts k) data)
                      (reducer_columns o)).
  { apply forallb_agree. intros k Hk.
    rewrite is_ok_col_iloc.
    apply (proj2 (float_iloc_wide data k Hne
                    ltac:(revert Hwide; apply List.Forall_impl; intros row Hr;
                          pose proof (reducer_columns_width o k Hk); lia))). }
  pose proof (metrics_body_of_columns o data) as Hok. rewrite Hcols in Hok.
  split; [exact Hok|]. split.
  - intros Hall. rewrite Hall in Hok. rewrite metrics_func_eq.
    destruct (metrics_body o data) as [vs|e] eqn:Hb; [|discriminate].
    exists vs. split; [reflexivity|].
    destruct (float_col data 2) as [s|e] eqn:Hs.
    + by destruct (metrics_body_cpu o data vs s Hb Hs) as [H0 _].
    + exfalso. rewrite <- Hcols in Hall.
      assert (H2 : In 2%nat (reducer_columns o)) by (destruct o; cbn; auto).
      pose proof (proj1 (forallb_forall _ _) Hall _ H2) as H.
      cbn beta in H. rewrite Hs in H. discriminate.
  - intros Hall. rewrite Hall in Hok. rewrite metrics_func_eq.
    destruct (metrics_body o data) as [vs|e] eqn:Hb; [discriminate|].
    exists e. destruct o; cbn; auto.
Qed.

Lemma X13_witness :
  exists vs,
    metrics_func Linux (lpar_records [Samples.lpar_line_22]) = ([], Ok vs) /\
    nth_error vs 0 = Some (VInt 1).
Proof.
  refine (proj1 (proj2 (X13_metric_reducer_succeeds_exactly_on_numeric_columns
                          Linux (lpar_records [Samples.lpar_line_22]) _ _)) _).
  - discriminate.
  - check_all.
  - vm_compute. reflexivity.
Defined.
